(** * Investigation tools of the Vectra MCP server

    A shallow embedding of [src/tool/investigation_tools.py]: the eight
    tools of [InvestigationMCPTools], each a thin adapter that shapes its
    parameters, awaits at most one method of the injected client and
    formats the answer as text.

    Layout of the development:
    - [Py]      the Python values, exceptions and built-ins the tools use
                ([str], truth value, subscripting, [dict.get], [join],
                [json.dumps]);
    - [Dates]   [datetime] objects, their [isoformat], and the date-range
                validator that the module imports;
    - [Tool]    the effect of a tool body: a log of client calls plus a
                result that is a value or a raised exception;
    - [InvestigationMCPTools]  the eight tools, line by line;
    - the vocabulary of the statements, the laws of the effect, how each
      tool runs as a function of the client's answer, and the theorems,
      in the order of the claims C1 to C10. *)

From Stdlib Require Import ZArith List String Ascii Bool Lia DecimalString DecimalZ.
Import ListNotations.

#[local] Set Warnings "-register-all".

Local Open Scope list_scope.
Local Open Scope string_scope.

(* ===================================================================== *)
(** ** Python values and built-ins *)
(* ===================================================================== *)

Module Py.

(** The objects that travel between the tools and the client: what
    [json.loads] produces (numbers restricted to [int]).  A [str] is a
    sequence of code points below 256, one [ascii] each.  A [dict] keeps
    its insertion order, which [json.dumps] follows, so it is an
    association list; its keys are [str]. *)
Inductive pyval : Type :=
| PNone
| PBool (b : bool)
| PInt (z : Z)
| PStr (s : string)
| PList (items : list pyval)
| PDict (entries : list (string * pyval)).

Definition dict := list (string * pyval).

(** Exception classes that occur in the module or that its built-ins
    raise.  [Exception] is the generic class every tool re-raises. *)
Inductive exn_class : Type :=
| Exception
| ValueError
| TypeError
| KeyError
| AttributeError
| ClientError.

(** An exception object: its class and [str(e)]. *)
Record exn : Type := mk_exn { exn_cls : exn_class; exn_str : string }.

Inductive result (A : Type) : Type :=
| Return (a : A)
| Raise (e : exn).
Arguments Return {A} a.
Arguments Raise {A} e.

(** *** [str] and [repr] *)

(** [str(n)] for an [int]. *)
Definition str_int (z : Z) : string := NilZero.string_of_int (Z.to_int z).

(** [str(n)] for a length. *)
Definition str_nat (n : nat) : string := str_int (Z.of_nat n).

(** [sep.join(parts)]. *)
Fixpoint join (sep : string) (parts : list string) : string :=
  match parts with
  | [] => ""
  | [x] => x
  | x :: rest => x ++ sep ++ join sep rest
  end.

(** [str(ids)] for a list of [int]: the [repr] of each item, separated by
    a comma and a space, in brackets. *)
Definition str_int_list (ids : list Z) : string :=
  "[" ++ join ", " (map str_int ids) ++ "]".

(** *** Truth value, [is None], subscripting, [dict.get] *)

(** [bool(v)], the test behind [if v] and [not v]. *)
Definition truthy (v : pyval) : bool :=
  match v with
  | PNone => false
  | PBool b => b
  | PInt z => negb (Z.eqb z 0)
  | PStr s => negb (String.eqb s "")
  | PList l => match l with [] => false | _ => true end
  | PDict d => match d with [] => false | _ => true end
  end.

Definition is_none (v : pyval) : bool :=
  match v with PNone => true | _ => false end.

(** Lookup in a dict. *)
Fixpoint dict_lookup (d : dict) (k : string) : option pyval :=
  match d with
  | [] => None
  | (k', v) :: rest => if String.eqb k' k then Some v else dict_lookup rest k
  end.

(** [d[k] = v]: overwrite in place when the key is there, else append. *)
Fixpoint dict_set (d : dict) (k : string) (v : pyval) : dict :=
  match d with
  | [] => [(k, v)]
  | (k', v') :: rest =>
      if String.eqb k' k then (k', v) :: rest else (k', v') :: dict_set rest k v
  end.

(** [repr(k)] for a key without quotes or escapes in it, as [KeyError]
    prints the missing key. *)
Definition repr_key (k : string) : string := "'" ++ k ++ "'".

(** [type(v).__name__]. *)
Definition type_name (v : pyval) : string :=
  match v with
  | PNone => "NoneType"
  | PBool _ => "bool"
  | PInt _ => "int"
  | PStr _ => "str"
  | PList _ => "list"
  | PDict _ => "dict"
  end.

(** [v[k]] for a [str] key [k]. *)
Definition subscript (v : pyval) (k : string) : result pyval :=
  match v with
  | PDict d =>
      match dict_lookup d k with
      | Some x => Return x
      | None => Raise (mk_exn KeyError (repr_key k))
      end
  | PList _ =>
      Raise (mk_exn TypeError "list indices must be integers or slices, not str")
  | PStr _ =>
      Raise (mk_exn TypeError "string indices must be integers, not 'str'")
  | _ =>
      Raise (mk_exn TypeError ("'" ++ type_name v ++ "' object is not subscriptable"))
  end.

(** [v.get(k)]: only a dict has the method. *)
Definition get_method (v : pyval) (k : string) : result pyval :=
  match v with
  | PDict d =>
      match dict_lookup d k with
      | Some x => Return x
      | None => Return PNone
      end
  | _ =>
      Raise (mk_exn AttributeError
               ("'" ++ type_name v ++ "' object has no attribute 'get'"))
  end.

(** *** [json.dumps] *)

Definition hex_digit (n : N) : ascii :=
  if (n <? 10)%N then ascii_of_N (48 + n) else ascii_of_N (87 + n).

(** The replacement of one character by [json.encoder]'s
    [py_encode_basestring_ascii]: the short escapes of [ESCAPE_DCT], the
    printable ASCII range as it is, everything else as a [\u00XX]. *)
Definition escape_char (c : ascii) : string :=
  let n := N_of_ascii c in
  if (n =? 34)%N then String "\" (String "034" "")
  else if (n =? 92)%N then "\\"
  else if (n =? 8)%N then "\b"
  else if (n =? 12)%N then "\f"
  else if (n =? 10)%N then "\n"
  else if (n =? 13)%N then "\r"
  else if (n =? 9)%N then "\t"
  else if ((32 <=? n) && (n <=? 126))%N then String c ""
  else "\u00" ++ String (hex_digit (n / 16)) (String (hex_digit (n mod 16)) "").

Fixpoint escape_string (s : string) : string :=
  match s with
  | EmptyString => ""
  | String c rest => escape_char c ++ escape_string rest
  end.

Definition dquote : string := String "034" "".

(** [encode_basestring_ascii(s)]: the escaped text between double quotes. *)
Definition encode_basestring_ascii (s : string) : string :=
  dquote ++ escape_string s ++ dquote.

(** [' ' * n]. *)
Fixpoint spaces (n : nat) : string :=
  match n with
  | O => ""
  | S k => String " " (spaces k)
  end.

(** The text placed before each item of a non-empty container at nesting
    [level]: a line break and the indentation when [indent] is given,
    nothing otherwise. *)
Definition newline_indent (indent : option nat) (level : nat) : string :=
  match indent with
  | Some w => String "010" (spaces (w * level))
  | None => ""
  end.

(** [JSONEncoder.item_separator]: a bare comma when [indent] is given,
    comma and space otherwise. *)
Definition item_separator (indent : option nat) : string :=
  match indent with
  | Some _ => ","
  | None => ", "
  end.

Definition key_separator : string := ": ".

(** [_iterencode] of [json.encoder] at nesting [level]. *)
Fixpoint iterencode (indent : option nat) (level : nat) (v : pyval) : string :=
  match v with
  | PNone => "null"
  | PBool true => "true"
  | PBool false => "false"
  | PInt z => str_int z
  | PStr s => encode_basestring_ascii s
  | PList [] => "[]"
  | PList items =>
      "[" ++ newline_indent indent (S level)
          ++ join (item_separator indent ++ newline_indent indent (S level))
                  (map (iterencode indent (S level)) items)
          ++ newline_indent indent level ++ "]"
  | PDict [] => "{}"
  | PDict entries =>
      "{" ++ newline_indent indent (S level)
          ++ join (item_separator indent ++ newline_indent indent (S level))
                  (map (fun kv =>
                          encode_basestring_ascii (fst kv) ++ key_separator
                            ++ iterencode indent (S level) (snd kv))
                       entries)
          ++ newline_indent indent level ++ "}"
  end.

(** [json.dumps(v)] is [json_dumps None v]; [json.dumps(v, indent=2)] is
    [json_dumps (Some 2) v]. *)
Definition json_dumps (indent : option nat) (v : pyval) : string :=
  iterencode indent 0 v.

End Py.
Import Py.

(* ===================================================================== *)
(** ** Dates *)
(* ===================================================================== *)

Module Dates.

(** A naive [datetime.datetime] with no microseconds. *)
Record datetime : Type := mk_datetime {
  year : nat; month : nat; day : nat;
  hour : nat; minute : nat; second : nat
}.

(** One decimal digit of [n], as a character. *)
Definition digit_char (n : nat) : ascii := ascii_of_nat (48 + n mod 10).

Definition pad2 (n : nat) : string :=
  String (digit_char (n / 10)) (String (digit_char n) "").

Definition pad4 (n : nat) : string :=
  String (digit_char (n / 1000)) (String (digit_char (n / 100)) (pad2 n)).

(** [d.isoformat()] for a datetime without microseconds or time zone. *)
Definition isoformat (d : datetime) : string :=
  pad4 (year d) ++ "-" ++ pad2 (month d) ++ "-" ++ pad2 (day d) ++ "T"
    ++ pad2 (hour d) ++ ":" ++ pad2 (minute d) ++ ":" ++ pad2 (second d).

Definition digit_value (c : ascii) : option nat :=
  let n := nat_of_ascii c in
  if (48 <=? n)%nat && (n <=? 57)%nat then Some (n - 48)%nat else None.

(** The value of a run of decimal digits, [None] when a character is not
    a digit. *)
Fixpoint number (acc : nat) (cs : list ascii) : option nat :=
  match cs with
  | [] => Some acc
  | c :: rest =>
      match digit_value c with
      | Some d => number (10 * acc + d) rest
      | None => None
      end
  end.

Definition is_leap (y : nat) : bool :=
  ((y mod 4 =? 0) && negb (y mod 100 =? 0) || (y mod 400 =? 0))%nat.

Definition days_in_month (y m : nat) : nat :=
  match m with
  | 2 => if is_leap y then 29 else 28
  | 4 | 6 | 9 | 11 => 30
  | _ => 31
  end.

Definition valid_datetime (d : datetime) : bool :=
  ((1 <=? year d) && (1 <=? month d) && (month d <=? 12)
   && (1 <=? day d) && (day d <=? days_in_month (year d) (month d))
   && (hour d <? 24) && (minute d <? 60) && (second d <? 60))%nat.

Definition is_char (c : ascii) (expected : string) : bool :=
  String.eqb (String c "") expected.

(** Modelled from the spec: the parser behind [validate_date_range] of
    [utils/validators.py], which is not part of the sources at hand.  It
    reads "the exact format YYYY-MM-DDTHH:MM:SS": nineteen characters,
    digits and separators in their places, naming a date and a time of day
    that exist. *)
Definition parse_datetime (s : string) : option datetime :=
  match list_ascii_of_string s with
  | [y1; y2; y3; y4; s1; m1; m2; s2; d1; d2; t; h1; h2; c1; n1; n2; c2; e1; e2] =>
      if is_char s1 "-" && is_char s2 "-" && is_char t "T"
         && is_char c1 ":" && is_char c2 ":"
      then
        match number 0 [y1; y2; y3; y4], number 0 [m1; m2], number 0 [d1; d2],
              number 0 [h1; h2], number 0 [n1; n2], number 0 [e1; e2] with
        | Some y, Some m, Some d, Some h, Some n, Some e =>
            let dt := mk_datetime y m d h n e in
            if valid_datetime dt then Some dt else None
        | _, _, _, _, _, _ => None
        end
      else None
  | _ => None
  end.

Section Validator.

(** The text of the validation error for a string that does not parse.
    The spec does not fix its wording, so it stays a parameter. *)
Variable invalid_date_text : string -> string.

Definition parse_bound (bound : option string) : result (option datetime) :=
  match bound with
  | None => Return None
  | Some s =>
      match parse_datetime s with
      | Some d => Return (Some d)
      | None => Raise (mk_exn ValueError (invalid_date_text s))
      end
  end.

(** Modelled from the spec: [validate_date_range] of [utils/validators.py],
    which is not part of the sources at hand: "given an optional after
    string and an optional before string in YYYY-MM-DDTHH:MM:SS format,
    returns parsed lower/upper bounds or signals a validation failure". *)
Definition validate_date_range (after before : option string)
  : result (option datetime * option datetime) :=
  match parse_bound after with
  | Raise e => Raise e
  | Return lo =>
      match parse_bound before with
      | Raise e => Raise e
      | Return hi => Return (lo, hi)
      end
  end.

End Validator.

End Dates.
Import Dates.

(* ===================================================================== *)
(** ** The effect of a tool body *)
(* ===================================================================== *)

Module Tool.

(** One awaited method of the client, with its arguments: keyword
    arguments as the dict that is splatted, positional ones as they are. *)
Inductive call : Type :=
| Call_get_assignments (kwargs : dict)
| Call_get_assignment (assignment_id : Z)
| Call_delete_assignment (arg : pyval)
| Call_add_entity_note (kwargs : dict)
| Call_mark_detection_fixed (detection_ids : list Z) (mark_fixed : bool).

(** The injected client, seen from the tools: each call returns an object
    or raises. *)
Definition client := call -> result pyval.

(** A tool body reads the client, appends to the log of calls made so far
    and ends with a value or a raised exception. *)
Definition tool (A : Type) : Type := client -> list call -> list call * result A.

Definition ret {A} (a : A) : tool A := fun _ log => (log, Return a).

Definition raise {A} (cls : exn_class) (msg : string) : tool A :=
  fun _ log => (log, Raise (mk_exn cls msg)).

Definition bind {A B} (m : tool A) (k : A -> tool B) : tool B :=
  fun cl log =>
    match m cl log with
    | (log', Return a) => k a cl log'
    | (log', Raise e) => (log', Raise e)
    end.

(** A built-in that returns or raises, without touching the client. *)
Definition lift {A} (r : result A) : tool A := fun _ log => (log, r).

(** [await self.client.<method>(...)]. *)
Definition await (c : call) : tool pyval :=
  fun cl log => ((log ++ [c])%list, cl c).

(** [try: body  except Exception as e: handler e]. *)
Definition try_except {A} (body : tool A) (handler : exn -> tool A) : tool A :=
  fun cl log =>
    match body cl log with
    | (log', Return a) => (log', Return a)
    | (log', Raise e) => handler e cl log'
    end.

(** One invocation of a tool against a client: the calls it made, in
    order, and how it ended. *)
Definition run {A} (m : tool A) (cl : client) : list call * result A := m cl [].

Definition calls {A} (m : tool A) (cl : client) : list call := fst (run m cl).
Definition outcome {A} (m : tool A) (cl : client) : result A := snd (run m cl).

End Tool.
Import Tool.

Declare Scope tool_scope.
Delimit Scope tool_scope with tool.
Notation "x <- m ;; k" := (bind m (fun x => k))
  (at level 61, m at next level, right associativity) : tool_scope.
Notation "m ;; k" := (bind m (fun _ => k))
  (at level 61, right associativity) : tool_scope.
Local Open Scope tool_scope.

(* ===================================================================== *)
(** ** The tools of [InvestigationMCPTools] *)
(* ===================================================================== *)

Section InvestigationMCPTools.

(** [from utils.validators import validate_date_range]: the imported
    helper, whatever it is bound to. *)
Variable validate_date_range :
  option string -> option string -> result (option datetime * option datetime).

(** [x in ["host", "account"]]. *)
Definition in_host_account (x : string) : bool :=
  String.eqb x "host" || String.eqb x "account".

Definition list_assignments (resolved : bool) (created_after : option string)
  : tool string :=
  try_except
    (let search_params := [("resolved", PBool resolved)] in
     bounds <- lift (validate_date_range created_after None) ;;
     let start_date := fst bounds in
     let search_params :=
       match start_date with
       | Some d => dict_set search_params "created_after" (PStr (isoformat d))
       | None => search_params
       end in
     assignments <- await (Call_get_assignments search_params) ;;
     if is_none assignments then ret "No assignments found."
     else ret (json_dumps (Some 2) assignments))
    (fun e => raise Exception ("Failed to list assignments: " ++ exn_str e)).

Definition list_assignments_for_user (user_id : Z) (resolved : bool)
  : tool string :=
  try_except
    (assignments <- await (Call_get_assignments
                             [("assignee", PInt user_id);
                              ("resolved", PBool resolved)]) ;;
     if is_none assignments then ret "No assignments found."
     else ret (json_dumps (Some 2) assignments))
    (fun e => raise Exception ("Failed to list assignments: " ++ exn_str e)).

Definition get_assignment_detail_by_id (assignment_id : Z) : tool string :=
  try_except
    (assignment_details <- await (Call_get_assignment assignment_id) ;;
     ret (json_dumps (Some 2) assignment_details))
    (fun e => raise Exception ("Failed to list assignment : "
                                 ++ str_int assignment_id ++ ": " ++ exn_str e)).

Definition get_assignment_for_entity (entity_ids : list Z) (entity_type : string)
  : tool string :=
  try_except
    ((if negb (in_host_account entity_type)
      then raise ValueError "entity_type must be either 'host' or 'account'."
      else ret tt) ;;
     let search_params :=
       if String.eqb entity_type "host"
       then [("hosts", PStr (join "," (map str_int entity_ids)))]
       else [("accounts", PStr (join "," (map str_int entity_ids)))] in
     assignments <- await (Call_get_assignments search_params) ;;
     results <- lift (subscript assignments "results") ;;
     if negb (truthy results)
     then ret ("No assignments found for " ++ entity_type ++ ": "
                 ++ str_int_list entity_ids ++ ".")
     else
       results <- lift (subscript assignments "results") ;;
       ret (json_dumps (Some 2) results))
    (fun e => raise Exception ("Failed to fetch assignment for " ++ entity_type
                                 ++ ": " ++ str_int_list entity_ids ++ ": "
                                 ++ exn_str e)).

(** The payload [create_assignment] prepares before its [try]. *)
Definition assignment_data (assign_to_user_id assign_entity_id : Z)
    (assign_entity_type : string) : dict :=
  let data := [("assign_to_user_id", PInt assign_to_user_id)] in
  if String.eqb assign_entity_type "account"
  then dict_set data "assign_account_id" (PInt assign_entity_id)
  else dict_set data "assign_host_id" (PInt assign_entity_id).

Definition create_assignment (assign_to_user_id assign_entity_id : Z)
    (assign_entity_type : string) : tool string :=
  let data := assignment_data assign_to_user_id assign_entity_id assign_entity_type in
  try_except
    (assignment <- await (Call_delete_assignment (PDict data)) ;;
     inner <- lift (get_method assignment "assignment") ;;
     assignment_id <- lift (get_method inner "id") ;;
     ret (json_dumps None assignment))
    (fun e => raise Exception ("Failed to create assignment: " ++ exn_str e)).

Definition create_entity_note (entity_id : Z) (entity_type note : string)
  : tool string :=
  try_except
    ((if negb (in_host_account entity_type)
      then raise ValueError "entity_type must be either 'host' or 'account'."
      else ret tt) ;;
     let params := [] in
     let params := dict_set params "entity_id" (PInt entity_id) in
     let params := dict_set params "type" (PStr entity_type) in
     let params := dict_set params "note" (PStr note) in
     create_note <- await (Call_add_entity_note params) ;;
     ret (json_dumps (Some 2) create_note))
    (fun e => raise Exception ("Failed to add note to entity "
                                 ++ str_int entity_id ++ ": " ++ exn_str e)).

Definition mark_detection_fixed (detection_ids : list Z) (mark_fixed : bool)
  : tool string :=
  match detection_ids with
  | [] => ret "No detection IDs provided."
  | _ =>
      try_except
        (response <- await (Call_mark_detection_fixed detection_ids mark_fixed) ;;
         ret ("Marked " ++ str_nat (List.length detection_ids) ++ " detections as "
                ++ (if mark_fixed then "fixed" else "not fixed") ++ "."))
        (fun e => raise Exception ("Failed to mark detections: " ++ exn_str e))
  end.

Definition delete_assignment (assignment_id : Z) : tool string :=
  try_except
    (await (Call_delete_assignment (PInt assignment_id)) ;;
     ret ("Assignment " ++ str_int assignment_id ++ " deleted successfully."))
    (fun e => raise Exception ("Failed to delete assignment "
                                 ++ str_int assignment_id ++ ": " ++ exn_str e)).

End InvestigationMCPTools.

(* ===================================================================== *)
(** ** Registration *)
(* ===================================================================== *)

(** The tool methods the class defines. *)
Inductive tool_name : Type :=
| Tool_list_assignments
| Tool_list_assignments_for_user
| Tool_get_assignment_detail_by_id
| Tool_get_assignment_for_entity
| Tool_create_assignment
| Tool_create_entity_note
| Tool_mark_detection_fixed
| Tool_delete_assignment.

(** [self.vectra_mcp.tool()(f)], seen from the module: one more
    registration reaches the host, after those it already has. *)
Definition register (f : tool_name) (host : list tool_name) : list tool_name :=
  (host ++ [f])%list.

Definition register_tools (host : list tool_name) : list tool_name :=
  let host := register Tool_create_assignment host in
  let host := register Tool_list_assignments host in
  let host := register Tool_list_assignments_for_user host in
  let host := register Tool_delete_assignment host in
  let host := register Tool_get_assignment_detail_by_id host in
  let host := register Tool_get_assignment_for_entity host in
  let host := register Tool_create_entity_note host in
  let host := register Tool_mark_detection_fixed host in
  host.

Definition tool_name_eq_dec (a b : tool_name) : {a = b} + {a <> b}.
Proof. decide equality. Defined.

(* ===================================================================== *)
(** ** Vocabulary of the statements *)
(* ===================================================================== *)

(** [needle in hay] for two [str]. *)
Fixpoint contains (needle hay : string) : bool :=
  prefix needle hay
  || match hay with
     | EmptyString => false
     | String _ rest => contains needle rest
     end.

(** [Exception(f"<prefix>{str(e0)}")]: the error a handler raises for the
    caught error [e0]. *)
Definition reraise (prefix : string) (e0 : exn) : exn :=
  mk_exn Exception (prefix ++ exn_str e0).

(** The error of the type check of the two entity tools. *)
Definition entity_type_error : exn :=
  mk_exn ValueError "entity_type must be either 'host' or 'account'.".

(** The filter [get_assignment_for_entity] sends for a valid type. *)
Definition entity_query (entity_ids : list Z) (entity_type : string) : call :=
  Call_get_assignments
    (if String.eqb entity_type "host"
     then [("hosts", PStr (join "," (map str_int entity_ids)))]
     else [("accounts", PStr (join "," (map str_int entity_ids)))]).

(** The no-assignments message of [get_assignment_for_entity]. *)
Definition no_assignments_for (entity_ids : list Z) (entity_type : string) : string :=
  "No assignments found for " ++ entity_type ++ ": "
    ++ str_int_list entity_ids ++ ".".

(** The prefix of the error of [get_assignment_for_entity]. *)
Definition fetch_failure_prefix (entity_ids : list Z) (entity_type : string) : string :=
  "Failed to fetch assignment for " ++ entity_type ++ ": "
    ++ str_int_list entity_ids ++ ": ".

(** The query [list_assignments] sends once the validator has returned the
    lower bound [start_date]. *)
Definition list_query (resolved : bool) (start_date : option datetime) : call :=
  Call_get_assignments
    match start_date with
    | Some d => dict_set [("resolved", PBool resolved)] "created_after"
                  (PStr (isoformat d))
    | None => [("resolved", PBool resolved)]
    end.

(** The query [list_assignments_for_user] sends. *)
Definition user_query (user_id : Z) (resolved : bool) : call :=
  Call_get_assignments [("assignee", PInt user_id); ("resolved", PBool resolved)].

(** How an invocation of [get_assignment_for_entity] with a valid type
    ends, as a function of the client's answer to its one call. *)
Definition entity_outcome (ids : list Z) (ty : string) (answer : result pyval)
  : result string :=
  let reraise e :=
    Raise (mk_exn Exception (fetch_failure_prefix ids ty ++ exn_str e)) in
  match answer with
  | Raise e => reraise e
  | Return v =>
      match subscript v "results" with
      | Raise e => reraise e
      | Return r =>
          if truthy r then Return (json_dumps (Some 2) r)
          else Return (no_assignments_for ids ty)
      end
  end.

(** How both listing tools end, as a function of the client's answer. *)
Definition listing_outcome (answer : result pyval) : result string :=
  match answer with
  | Return v =>
      if is_none v then Return "No assignments found."
      else Return (json_dumps (Some 2) v)
  | Raise e => Raise (mk_exn Exception ("Failed to list assignments: " ++ exn_str e))
  end.

(** The characters a JSON text can begin with: a digit, a minus sign, a
    double quote, a bracket, a brace, or the first letter of [null],
    [true], [false]. *)
Definition json_start (c : ascii) : bool :=
  let n := nat_of_ascii c in
  ((48 <=? n) && (n <=? 57) || (n =? 45) || (n =? 34) || (n =? 91)
   || (n =? 123) || (n =? 110) || (n =? 116) || (n =? 102))%nat.

(** The call [create_entity_note] makes for a valid type. *)
Definition note_query (entity_id : Z) (entity_type note : string) : call :=
  Call_add_entity_note
    [("entity_id", PInt entity_id); ("type", PStr entity_type); ("note", PStr note)].

(** The call [create_assignment] makes. *)
Definition create_query (assign_to_user_id assign_entity_id : Z)
    (assign_entity_type : string) : call :=
  Call_delete_assignment
    (PDict (assignment_data assign_to_user_id assign_entity_id assign_entity_type)).

(** How [create_assignment] ends, as a function of the client's answer. *)
Definition create_outcome (answer : result pyval) : result string :=
  let reraise e :=
    Raise (mk_exn Exception ("Failed to create assignment: " ++ exn_str e)) in
  match answer with
  | Raise e => reraise e
  | Return assignment =>
      match get_method assignment "assignment" with
      | Raise e => reraise e
      | Return inner =>
          match get_method inner "id" with
          | Raise e => reraise e
          | Return _ => Return (json_dumps None assignment)
          end
      end
  end.

(** The confirmation of [mark_detection_fixed]. *)
Definition marked_message (detection_ids : list Z) (mark_fixed : bool) : string :=
  "Marked " ++ str_nat (List.length detection_ids) ++ " detections as "
    ++ (if mark_fixed then "fixed" else "not fixed") ++ ".".

(** The confirmation of [delete_assignment]. *)
Definition deleted_message (assignment_id : Z) : string :=
  "Assignment " ++ str_int assignment_id ++ " deleted successfully.".

(** Two clients that answer every call to one method alike. *)
Definition agree_on_get_assignments (cl1 cl2 : client) : Prop :=
  forall kwargs, cl1 (Call_get_assignments kwargs) = cl2 (Call_get_assignments kwargs).

Definition agree_on_delete_assignment (cl1 cl2 : client) : Prop :=
  forall arg, cl1 (Call_delete_assignment arg) = cl2 (Call_delete_assignment arg).

(** Every character of [s] satisfies [p]. *)
Fixpoint all_chars (p : ascii -> bool) (s : string) : bool :=
  match s with
  | EmptyString => true
  | String c rest => p c && all_chars p rest
  end.

(** A line break or a printable ASCII character. *)
Definition text_char (c : ascii) : bool :=
  let n := nat_of_ascii c in
  ((n =? 10) || (32 <=? n) && (n <=? 126))%nat.

(** A decimal digit or a minus sign. *)
Definition int_char (c : ascii) : bool :=
  let n := nat_of_ascii c in
  ((48 <=? n) && (n <=? 57) || (n =? 45))%nat.

(** Text made of line breaks and printable ASCII only. *)
Definition ascii_text (s : string) : bool := all_chars text_char s.

(** What follows the first part of [",".join(parts)]. *)
Definition join_tail (parts : list string) : string :=
  match parts with
  | [] => ""
  | _ => "," ++ join "," parts
  end.

(** The JSON texts of the values whose truth value is false: the empty
    list, dict and string, [None], [False] and zero. *)
Definition empty_json_texts : list string :=
  ["[]"; "{}"; String "034" (String "034" ""); "null"; "false"; "0"].









(* ===================================================================== *)
(** ** Laws of the effect *)
(* ===================================================================== *)

Section ToolLaws.

Context {A B C : Type}.

Lemma run_ret (a : A) cl : run (ret a) cl = ([], Return a).
Proof. reflexivity. Qed.

Lemma bind_ret_l (a : A) (k : A -> tool B) cl log :
  bind (ret a) k cl log = k a cl log.
Proof. reflexivity. Qed.

Lemma bind_ret_r (m : tool A) cl log :
  bind m ret cl log = m cl log.
Proof.
  unfold bind, ret. destruct (m cl log) as [log' [a | e]]; reflexivity.
Qed.

Lemma bind_assoc (m : tool A) (k : A -> tool B) (h : B -> tool C) cl log :
  bind (bind m k) h cl log = bind m (fun a => bind (k a) h) cl log.
Proof.
  unfold bind. destruct (m cl log) as [log' [a | e]]; reflexivity.
Qed.

End ToolLaws.

Lemma string_app_assoc (a b c : string) : (a ++ b) ++ c = a ++ (b ++ c).
Proof. induction a as [| ch a IH]; simpl; [reflexivity | now rewrite IH]. Qed.

(** Unfolds an invocation down to the client's answers. *)
Ltac tool_unfold :=
  unfold calls, outcome; unfold run;
  unfold try_except, bind, await, lift, ret, raise;
  cbn [fst snd app].

Lemma return_inj {A} (a b : A) : Return a = Return b -> a = b.
Proof. congruence. Qed.

Lemma raise_inj {A} (a b : exn) : @Raise A a = Raise b -> a = b.
Proof. congruence. Qed.

(* ===================================================================== *)
(** ** How each tool runs *)
(* ===================================================================== *)

(** The type test of the two entity tools. *)
Lemma in_host_account_false ty :
  ty <> "host" -> ty <> "account" -> in_host_account ty = false.
Proof.
  intros Hh Ha. unfold in_host_account.
  apply orb_false_iff. split; apply String.eqb_neq; assumption.
Qed.

Lemma get_assignment_for_entity_run ids ty cl :
  in_host_account ty = true ->
  run (get_assignment_for_entity ids ty) cl
  = ([entity_query ids ty], entity_outcome ids ty (cl (entity_query ids ty))).
Proof.
  intros Hty.
  unfold get_assignment_for_entity. tool_unfold.
  rewrite Hty. cbn [negb].
  unfold entity_outcome, fetch_failure_prefix, no_assignments_for.
  change (Call_get_assignments _) with (entity_query ids ty).
  destruct (cl (entity_query ids ty)) as [v | e]; cbv zeta;
    [| now rewrite !string_app_assoc].
  destruct (subscript v "results") as [r | e];
    [| now rewrite !string_app_assoc].
  destruct (truthy r); reflexivity.
Qed.

Lemma get_assignment_for_entity_invalid ids ty cl :
  in_host_account ty = false ->
  run (get_assignment_for_entity ids ty) cl
  = ([], Raise (mk_exn Exception
                  (fetch_failure_prefix ids ty
                     ++ "entity_type must be either 'host' or 'account'."))).
Proof.
  intros Hty. unfold get_assignment_for_entity. tool_unfold.
  rewrite Hty. cbn [negb]. unfold fetch_failure_prefix.
  rewrite !string_app_assoc. reflexivity.
Qed.

(** [create_entity_note] with a type that is neither of the two. *)
Lemma create_entity_note_invalid eid ty note cl :
  in_host_account ty = false ->
  run (create_entity_note eid ty note) cl
  = ([], Raise (mk_exn Exception
                  ("Failed to add note to entity " ++ str_int eid ++ ": "
                     ++ "entity_type must be either 'host' or 'account'."))).
Proof.
  intros Hty. unfold create_entity_note. tool_unfold.
  rewrite Hty. reflexivity.
Qed.

(** How [mark_detection_fixed] ends on a non-empty list, as a function of
    the client's answer. *)
Lemma mark_detection_fixed_run id ids flag cl :
  run (mark_detection_fixed (id :: ids) flag) cl
  = ([Call_mark_detection_fixed (id :: ids) flag],
     match cl (Call_mark_detection_fixed (id :: ids) flag) with
     | Return _ =>
         Return ("Marked " ++ str_nat (List.length (id :: ids)) ++ " detections as "
                   ++ (if flag then "fixed" else "not fixed") ++ ".")
     | Raise e =>
         Raise (mk_exn Exception ("Failed to mark detections: " ++ exn_str e))
     end).
Proof.
  unfold mark_detection_fixed. tool_unfold.
  destruct (cl (Call_mark_detection_fixed (id :: ids) flag)); reflexivity.
Qed.

Section ListAssignments.

Variable vdr :
  option string -> option string -> result (option datetime * option datetime).

Lemma list_assignments_run_valid resolved created_after lo hi cl :
  vdr created_after None = Return (lo, hi) ->
  run (list_assignments vdr resolved created_after) cl
  = ([list_query resolved lo], listing_outcome (cl (list_query resolved lo))).
Proof.
  intros Hv. unfold list_assignments. tool_unfold. rewrite Hv. cbn [fst].
  unfold listing_outcome.
  change (Call_get_assignments _) with (list_query resolved lo).
  destruct (cl (list_query resolved lo)) as [v | e]; [| reflexivity].
  destruct (is_none v); reflexivity.
Qed.

Lemma list_assignments_run_invalid resolved created_after e cl :
  vdr created_after None = Raise e ->
  run (list_assignments vdr resolved created_after) cl
  = ([], Raise (mk_exn Exception ("Failed to list assignments: " ++ exn_str e))).
Proof.
  intros Hv. unfold list_assignments. tool_unfold. rewrite Hv. reflexivity.
Qed.

(** When [list_assignments] made the call [c], its outcome is the
    listing outcome of the answer to [c]. *)
Lemma list_assignments_outcome_of_call resolved created_after cl c :
  calls (list_assignments vdr resolved created_after) cl = [c] ->
  outcome (list_assignments vdr resolved created_after) cl
  = listing_outcome (cl c).
Proof.
  unfold calls, outcome.
  destruct (vdr created_after None) as [[lo hi] | e] eqn:Hv.
  - rewrite (list_assignments_run_valid _ _ _ _ _ Hv). cbn [fst snd].
    intros Hc. injection Hc as <-. reflexivity.
  - rewrite (list_assignments_run_invalid _ _ _ _ Hv). cbn [fst].
    discriminate.
Qed.

End ListAssignments.

Lemma list_assignments_for_user_run user_id resolved cl :
  run (list_assignments_for_user user_id resolved) cl
  = ([user_query user_id resolved],
     listing_outcome (cl (user_query user_id resolved))).
Proof.
  unfold list_assignments_for_user. tool_unfold. unfold listing_outcome.
  change (Call_get_assignments _) with (user_query user_id resolved).
  destruct (cl (user_query user_id resolved)) as [v | e]; [| reflexivity].
  destruct (is_none v); reflexivity.
Qed.

Lemma get_assignment_detail_by_id_run assignment_id cl :
  run (get_assignment_detail_by_id assignment_id) cl
  = ([Call_get_assignment assignment_id],
     match cl (Call_get_assignment assignment_id) with
     | Return v => Return (json_dumps (Some 2) v)
     | Raise e =>
         Raise (mk_exn Exception
                  (("Failed to list assignment : " ++ str_int assignment_id ++ ": ")
                     ++ exn_str e))
     end).
Proof.
  unfold get_assignment_detail_by_id. tool_unfold.
  destruct (cl (Call_get_assignment assignment_id)) as [v | e]; [reflexivity |].
  now rewrite !string_app_assoc.
Qed.

Lemma create_assignment_run uid eid ty cl :
  run (create_assignment uid eid ty) cl
  = ([create_query uid eid ty], create_outcome (cl (create_query uid eid ty))).
Proof.
  unfold create_assignment. tool_unfold. unfold create_outcome.
  change (Call_delete_assignment _) with (create_query uid eid ty).
  destruct (cl (create_query uid eid ty)) as [v | e]; [| reflexivity].
  destruct (get_method v "assignment") as [inner | e]; [| reflexivity].
  destruct (get_method inner "id"); reflexivity.
Qed.

Lemma create_entity_note_run eid ty note cl :
  in_host_account ty = true ->
  run (create_entity_note eid ty note) cl
  = ([note_query eid ty note],
     match cl (note_query eid ty note) with
     | Return v => Return (json_dumps (Some 2) v)
     | Raise e =>
         Raise (mk_exn Exception
                  (("Failed to add note to entity " ++ str_int eid ++ ": ")
                     ++ exn_str e))
     end).
Proof.
  intros Hty. unfold create_entity_note. tool_unfold. rewrite Hty. cbn [negb].
  change (Call_add_entity_note _) with (note_query eid ty note).
  destruct (cl (note_query eid ty note)) as [v | e]; [reflexivity |].
  now rewrite !string_app_assoc.
Qed.

Lemma delete_assignment_run id cl :
  run (delete_assignment id) cl
  = ([Call_delete_assignment (PInt id)],
     match cl (Call_delete_assignment (PInt id)) with
     | Return _ => Return (deleted_message id)
     | Raise e =>
         Raise (mk_exn Exception
                  (("Failed to delete assignment " ++ str_int id ++ ": ")
                     ++ exn_str e))
     end).
Proof.
  unfold delete_assignment. tool_unfold.
  destruct (cl (Call_delete_assignment (PInt id))) as [v | e]; [reflexivity |].
  now rewrite !string_app_assoc.
Qed.

(** *** The first character of a JSON text *)

Lemma str_int_start z :
  exists c rest, str_int z = String c rest /\ json_start c = true.
Proof.
  unfold str_int.
  destruct (Z.to_int z) as [d | d]; cbn.
  - destruct d; cbn; eexists _, _; split; reflexivity.
  - eexists _, _; split; reflexivity.
Qed.

Lemma iterencode_start indent level v :
  exists c rest, iterencode indent level v = String c rest /\ json_start c = true.
Proof.
  destruct v as [| b | z | s | items | entries]; cbn [iterencode].
  - eexists _, _; split; reflexivity.
  - destruct b; eexists _, _; split; reflexivity.
  - apply str_int_start.
  - eexists _, _; split; reflexivity.
  - destruct items; eexists _, _; split; reflexivity.
  - destruct entries; eexists _, _; split; reflexivity.
Qed.

(** No JSON text is a no-assignments message. *)
Lemma json_dumps_not_no_assignments indent v ids ty :
  json_dumps indent v <> no_assignments_for ids ty.
Proof.
  unfold json_dumps. intros Heq.
  destruct (iterencode_start indent 0 v) as (c & rest & Hc & Hstart).
  rewrite Hc in Heq. unfold no_assignments_for in Heq. cbn in Heq.
  injection Heq as Hchar _. subst c. discriminate Hstart.
Qed.

(** *** Parsing a timestamp and printing it back *)

Lemma digit_value_spec c n :
  digit_value c = Some n -> (n < 10)%nat /\ ascii_of_nat (48 + n) = c.
Proof.
  unfold digit_value.
  destruct ((48 <=? nat_of_ascii c)%nat && (nat_of_ascii c <=? 57)%nat) eqn:Hr;
    [| discriminate].
  intros H. injection H as <-.
  apply andb_true_iff in Hr. destruct Hr as [Hlo Hhi].
  apply Nat.leb_le in Hlo. apply Nat.leb_le in Hhi.
  split; [lia |].
  replace (48 + (nat_of_ascii c - 48))%nat with (nat_of_ascii c) by lia.
  apply ascii_nat_embedding.
Qed.

(** The digit of [n] at the place of weight [k]. *)
Lemma place_digit (n k hi d lo : nat) :
  (n = (10 * hi + d) * k + lo -> lo < k -> d < 10 -> (n / k) mod 10 = d)%nat.
Proof.
  intros Hn Hlo Hd.
  assert (Hq : (n / k = 10 * hi + d)%nat).
  { symmetry. apply (Nat.div_unique n k (10 * hi + d) lo); lia. }
  rewrite Hq. symmetry. apply (Nat.mod_unique (10 * hi + d) 10 hi d); lia.
Qed.

Lemma unit_digit (n hi d : nat) :
  (n = 10 * hi + d -> d < 10 -> n mod 10 = d)%nat.
Proof.
  intros Hn Hd. symmetry. apply (Nat.mod_unique n 10 hi d); lia.
Qed.

Lemma digit_char_digit c n k :
  digit_value c = Some n -> (k mod 10 = n)%nat -> digit_char k = c.
Proof.
  intros Hc Hk. unfold digit_char. rewrite Hk.
  now destruct (digit_value_spec c n Hc).
Qed.

Lemma pad2_number c1 c2 m :
  number 0 [c1; c2] = Some m -> pad2 m = String c1 (String c2 "").
Proof.
  cbn [number].
  destruct (digit_value c1) as [a |] eqn:Ha; [| discriminate].
  destruct (digit_value c2) as [b |] eqn:Hb; [| discriminate].
  intros H. injection H as <-.
  destruct (digit_value_spec _ _ Ha) as [La _].
  destruct (digit_value_spec _ _ Hb) as [Lb _].
  unfold pad2.
  rewrite (digit_char_digit c1 a _ Ha), (digit_char_digit c2 b _ Hb).
  - reflexivity.
  - apply (unit_digit _ a b); lia.
  - apply (place_digit _ 10 0 a b); lia.
Qed.

Lemma pad4_number c1 c2 c3 c4 m :
  number 0 [c1; c2; c3; c4] = Some m ->
  pad4 m = String c1 (String c2 (String c3 (String c4 ""))).
Proof.
  cbn [number].
  destruct (digit_value c1) as [a |] eqn:Ha; [| discriminate].
  destruct (digit_value c2) as [b |] eqn:Hb; [| discriminate].
  destruct (digit_value c3) as [c |] eqn:Hc; [| discriminate].
  destruct (digit_value c4) as [d |] eqn:Hd; [| discriminate].
  intros H. injection H as <-.
  destruct (digit_value_spec _ _ Ha) as [La _].
  destruct (digit_value_spec _ _ Hb) as [Lb _].
  destruct (digit_value_spec _ _ Hc) as [Lc _].
  destruct (digit_value_spec _ _ Hd) as [Ld _].
  unfold pad4, pad2.
  rewrite (digit_char_digit c1 a _ Ha), (digit_char_digit c2 b _ Hb),
    (digit_char_digit c3 c _ Hc), (digit_char_digit c4 d _ Hd).
  - reflexivity.
  - apply (unit_digit _ (100 * a + 10 * b + c) d); lia.
  - apply (place_digit _ 10 (10 * a + b) c d); lia.
  - apply (place_digit _ 100 a b (10 * c + d)); lia.
  - apply (place_digit _ 1000 0 a (100 * b + 10 * c + d)); lia.
Qed.

Lemma is_char_eq c expected :
  is_char c expected = true -> String c "" = expected.
Proof. unfold is_char. apply String.eqb_eq. Qed.

(** A string that parses is the ISO text of the datetime it parses to. *)
Lemma isoformat_parse_datetime s d :
  parse_datetime s = Some d -> isoformat d = s.
Proof.
  unfold parse_datetime.
  do 19 (destruct s as [| ? s]; cbn [list_ascii_of_string]; [discriminate |]).
  destruct s; cbn [list_ascii_of_string]; [| discriminate].
  match goal with
  | |- (if ?seps then _ else _) = _ -> _ => destruct seps eqn:Hseps; [| discriminate]
  end.
  repeat match goal with
         | |- match ?n with Some _ => _ | None => _ end = _ -> _ =>
             let H := fresh "Hnum" in destruct n eqn:H; [| discriminate]
         end.
  match goal with
  | |- (if ?v then _ else _) = _ -> _ => destruct v; [| discriminate]
  end.
  intros H. injection H as <-.
  repeat match goal with
         | H : _ && _ = true |- _ => apply andb_true_iff in H; destruct H
         end.
  repeat match goal with
         | H : is_char _ _ = true |- _ => apply is_char_eq in H; injection H as ->
         end.
  unfold isoformat. cbn [year month day hour minute second].
  repeat match goal with
         | H : number 0 [_; _] = Some _ |- _ =>
             rewrite (pad2_number _ _ _ H); clear H
         | H : number 0 [_; _; _; _] = Some _ |- _ =>
             rewrite (pad4_number _ _ _ _ _ H); clear H
         end.
  reflexivity.
Qed.

(* ===================================================================== *)
(** ** Theorems *)
(* ===================================================================== *)

(** C1 (the code departs from it): [create_assignment] prepares the
    payload keyed by [assign_to_user_id] and by [assign_account_id] or
    [assign_host_id], but the one client method it awaits with that
    payload is [delete_assignment]; no create method is called on any
    invocation, whatever the client answers. *)
Theorem create_assignment_awaits_delete :
  forall (assign_to_user_id assign_entity_id : Z) (assign_entity_type : string)
         (cl : client),
    calls (create_assignment assign_to_user_id assign_entity_id assign_entity_type) cl
    = [Call_delete_assignment
         (PDict (assignment_data assign_to_user_id assign_entity_id
                   assign_entity_type))]
    /\ assignment_data assign_to_user_id assign_entity_id assign_entity_type
       = [("assign_to_user_id", PInt assign_to_user_id);
          (if String.eqb assign_entity_type "account"
           then "assign_account_id" else "assign_host_id",
           PInt assign_entity_id)].
Proof.
  intros uid eid ty cl. split.
  - unfold create_assignment. tool_unfold.
    destruct (cl _) as [v | e]; [| reflexivity].
    destruct (get_method v "assignment") as [inner | e]; [| reflexivity].
    destruct (get_method inner "id"); reflexivity.
  - unfold assignment_data. destruct (String.eqb ty "account"); reflexivity.
Qed.

(** The invocation [create_assignment(1, 5, "host")] against a client that
    answers every call with a created-assignment mapping. *)
Example create_assignment_1_5_host :
  run (create_assignment 1 5 "host")
      (fun _ => Return (PDict [("assignment", PDict [("id", PInt 9)])]))
  = ([Call_delete_assignment
        (PDict [("assign_to_user_id", PInt 1); ("assign_host_id", PInt 5)])],
     Return (json_dumps None (PDict [("assignment", PDict [("id", PInt 9)])]))).
Proof. reflexivity. Qed.

(** C2 as stated fails: a client answering with the empty list makes both
    listing tools return the JSON text of the empty list, not the
    no-results string. *)
Lemma empty_list_answer_is_serialized :
  outcome (list_assignments (Dates.validate_date_range (fun s => s)) false None)
          (fun _ => Return (PList []))
  = Return "[]"
  /\ outcome (list_assignments_for_user 7 false) (fun _ => Return (PList []))
     = Return "[]"
  /\ "[]" <> "No assignments found.".
Proof. repeat split. discriminate. Qed.

(** C2 (amended): whenever the client call of [list_assignments] or of
    [list_assignments_for_user] returns [None], the tool returns
    "No assignments found."; when it returns an empty list or an empty
    mapping, the tool returns its JSON text. *)
Theorem listing_none_gives_no_results_string :
  (forall vdr (resolved : bool) (created_after : option string)
          (cl : client) (c : call) (answer : pyval),
      calls (list_assignments vdr resolved created_after) cl = [c] ->
      cl c = Return answer ->
      let out := outcome (list_assignments vdr resolved created_after) cl in
      (answer = PNone -> out = Return "No assignments found.")
      /\ (answer = PList [] -> out = Return "[]")
      /\ (answer = PDict [] -> out = Return "{}"))
  /\ (forall (user_id : Z) (resolved : bool) (cl : client) (answer : pyval),
        cl (user_query user_id resolved) = Return answer ->
        let out := outcome (list_assignments_for_user user_id resolved) cl in
        (answer = PNone -> out = Return "No assignments found.")
        /\ (answer = PList [] -> out = Return "[]")
        /\ (answer = PDict [] -> out = Return "{}")).
Proof.
  split.
  - intros vdr resolved ca cl c answer Hcalls Hcl out. subst out.
    rewrite (list_assignments_outcome_of_call vdr resolved ca cl c Hcalls), Hcl.
    repeat split; intros ->; reflexivity.
  - intros uid resolved cl answer Hcl out. subst out.
    unfold outcome. rewrite list_assignments_for_user_run, Hcl.
    repeat split; intros ->; reflexivity.
Qed.

Lemma listing_none_gives_no_results_string_witness :
  outcome (list_assignments_for_user 7 false) (fun _ => Return PNone)
  = Return "No assignments found.".
Proof.
  refine (proj1 (proj2 listing_none_gives_no_results_string
                   7%Z false (fun _ => Return PNone) PNone _) _);
    reflexivity.
Defined.

(** C3: with an [entity_type] other than "host" and "account",
    [get_assignment_for_entity] and [create_entity_note] make no client
    call and end in the re-raised validation error. *)
Theorem invalid_entity_type_rejected_before_any_call :
  forall (entity_type : string) (entity_ids : list Z) (entity_id : Z)
         (note : string) (cl : client),
    entity_type <> "host" -> entity_type <> "account" ->
    run (get_assignment_for_entity entity_ids entity_type) cl
    = ([], Raise (mk_exn Exception
                    (fetch_failure_prefix entity_ids entity_type
                       ++ "entity_type must be either 'host' or 'account'.")))
    /\ run (create_entity_note entity_id entity_type note) cl
       = ([], Raise (mk_exn Exception
                       ("Failed to add note to entity " ++ str_int entity_id ++ ": "
                          ++ "entity_type must be either 'host' or 'account'."))).
Proof.
  intros ty ids eid note cl Hh Ha.
  pose proof (in_host_account_false ty Hh Ha) as Hty.
  split.
  - now apply get_assignment_for_entity_invalid.
  - now apply create_entity_note_invalid.
Qed.

Lemma invalid_entity_type_rejected_witness :
  run (get_assignment_for_entity [10; 20]%Z "hosts") (fun _ => Return PNone)
  = ([], Raise (mk_exn Exception
                  (fetch_failure_prefix [10; 20]%Z "hosts"
                     ++ "entity_type must be either 'host' or 'account'.")))
  /\ run (create_entity_note 4 "hosts" "seen") (fun _ => Return PNone)
     = ([], Raise (mk_exn Exception
                     ("Failed to add note to entity " ++ str_int 4 ++ ": "
                        ++ "entity_type must be either 'host' or 'account'."))).
Proof.
  apply (invalid_entity_type_rejected_before_any_call
           "hosts" [10; 20]%Z 4 "seen" (fun _ => Return PNone));
    intro H; discriminate H.
Defined.

(** C4 as stated fails for [get_assignment_for_entity]: of the mapping
    the client returns, only the value under [results] is serialized; the
    other fields are dropped. *)
Lemma entity_output_is_not_the_whole_mapping :
  let m := PDict [("count", PInt 1); ("results", PList [PDict [("id", PInt 3)]])] in
  outcome (get_assignment_for_entity [10; 20]%Z "host") (fun _ => Return m)
  = Return (json_dumps (Some 2) (PList [PDict [("id", PInt 3)]]))
  /\ outcome (get_assignment_for_entity [10; 20]%Z "host") (fun _ => Return m)
     <> Return (json_dumps (Some 2) m).
Proof. split; [reflexivity | discriminate]. Qed.

(** C4 (amended): for every mapping [m] the client returns,
    [list_assignments] and [get_assignment_detail_by_id] return exactly
    [json.dumps(m, indent=2)]; [get_assignment_for_entity] returns exactly
    [json.dumps(m['results'], indent=2)] when [m] has a non-empty
    [results]. *)
Theorem read_output_is_json_of_answer :
  (forall vdr (resolved : bool) (created_after : option string)
          (cl : client) (c : call) (m : dict),
      calls (list_assignments vdr resolved created_after) cl = [c] ->
      cl c = Return (PDict m) ->
      outcome (list_assignments vdr resolved created_after) cl
      = Return (json_dumps (Some 2) (PDict m)))
  /\ (forall (assignment_id : Z) (cl : client) (m : dict),
        cl (Call_get_assignment assignment_id) = Return (PDict m) ->
        outcome (get_assignment_detail_by_id assignment_id) cl
        = Return (json_dumps (Some 2) (PDict m)))
  /\ (forall (entity_ids : list Z) (entity_type : string) (cl : client)
             (m : dict) (results : pyval),
        in_host_account entity_type = true ->
        cl (entity_query entity_ids entity_type) = Return (PDict m) ->
        dict_lookup m "results" = Some results ->
        truthy results = true ->
        outcome (get_assignment_for_entity entity_ids entity_type) cl
        = Return (json_dumps (Some 2) results)).
Proof.
  split; [| split].
  - intros vdr resolved ca cl c m Hcalls Hcl.
    rewrite (list_assignments_outcome_of_call vdr resolved ca cl c Hcalls), Hcl.
    reflexivity.
  - intros id cl m Hcl.
    unfold outcome. rewrite get_assignment_detail_by_id_run, Hcl. reflexivity.
  - intros ids ty cl m results Hty Hcl Hlookup Htruthy.
    unfold outcome. rewrite (get_assignment_for_entity_run ids ty cl Hty), Hcl.
    cbn [snd]. unfold entity_outcome. cbn [subscript].
    rewrite Hlookup, Htruthy. reflexivity.
Qed.

Lemma read_output_is_json_of_answer_witness :
  outcome (get_assignment_detail_by_id 5)
          (fun _ => Return (PDict [("id", PInt 5); ("resolved", PBool false)]))
  = Return (json_dumps (Some 2) (PDict [("id", PInt 5); ("resolved", PBool false)])).
Proof.
  apply (proj1 (proj2 read_output_is_json_of_answer) 5%Z
           (fun _ => Return (PDict [("id", PInt 5); ("resolved", PBool false)]))
           [("id", PInt 5); ("resolved", PBool false)]).
  reflexivity.
Defined.

(** C5: with the validator as the specification describes it,
    [list_assignments(created_after="2024-01-01T00:00:00")] sends the
    client the lower bound [created_after="2024-01-01T00:00:00"], and more
    generally every string that parses is sent back as it was given; a
    string that does not parse as YYYY-MM-DDTHH:MM:SS, such as
    "not-a-date", ends in the re-raised validation error with no client
    call made. *)
Theorem created_after_is_sent_or_rejected :
  forall (invalid_date_text : string -> string) (resolved : bool) (cl : client),
    let vdr := Dates.validate_date_range invalid_date_text in
    calls (list_assignments vdr resolved (Some "2024-01-01T00:00:00")) cl
    = [Call_get_assignments
         [("resolved", PBool resolved);
          ("created_after", PStr "2024-01-01T00:00:00")]]
    /\ (forall s d, parse_datetime s = Some d ->
          calls (list_assignments vdr resolved (Some s)) cl
          = [Call_get_assignments
               [("resolved", PBool resolved); ("created_after", PStr s)]])
    /\ parse_datetime "not-a-date" = None
    /\ (forall s, parse_datetime s = None ->
          run (list_assignments vdr resolved (Some s)) cl
          = ([], Raise (mk_exn Exception
                          ("Failed to list assignments: " ++ invalid_date_text s)))).
Proof.
  intros text resolved cl vdr.
  assert (Hsent : forall s d, parse_datetime s = Some d ->
            calls (list_assignments vdr resolved (Some s)) cl
            = [Call_get_assignments
                 [("resolved", PBool resolved); ("created_after", PStr s)]]).
  { intros s d Hp. unfold calls.
    rewrite (list_assignments_run_valid vdr resolved (Some s) (Some d) None).
    - cbn [fst]. unfold list_query. rewrite (isoformat_parse_datetime s d Hp).
      reflexivity.
    - unfold vdr, Dates.validate_date_range, parse_bound. rewrite Hp. reflexivity. }
  split; [| split; [| split]].
  - apply (Hsent _ (mk_datetime 2024 1 1 0 0 0)). reflexivity.
  - exact Hsent.
  - reflexivity.
  - intros s Hp.
    apply (list_assignments_run_invalid vdr resolved (Some s)
             (mk_exn ValueError (text s))).
    unfold vdr, Dates.validate_date_range, parse_bound. rewrite Hp. reflexivity.
Qed.

Lemma created_after_is_sent_or_rejected_witness :
  parse_datetime "not-a-date" = None
  /\ run (list_assignments
            (Dates.validate_date_range (fun s => "Invalid timestamp: " ++ s))
            false (Some "not-a-date"))
         (fun _ => Return PNone)
     = ([], Raise (mk_exn Exception
                     "Failed to list assignments: Invalid timestamp: not-a-date")).
Proof.
  split; [reflexivity |].
  apply (proj2 (proj2 (proj2
           (created_after_is_sent_or_rejected
              (fun s => "Invalid timestamp: " ++ s) false (fun _ => Return PNone))))
           "not-a-date").
  reflexivity.
Defined.

(** C6: with [entity_type] "host" the one query sent to the client has
    the single filter [hosts], the ids joined by commas; with "account" it
    is [accounts].  For the ids 10 and 20 the filters are [hosts=10,20]
    and [accounts=10,20]. *)
Theorem entity_filter_is_comma_joined_ids :
  forall (entity_ids : list Z) (cl : client),
    entity_ids <> [] ->
    calls (get_assignment_for_entity entity_ids "host") cl
    = [Call_get_assignments [("hosts", PStr (join "," (map str_int entity_ids)))]]
    /\ calls (get_assignment_for_entity entity_ids "account") cl
       = [Call_get_assignments
            [("accounts", PStr (join "," (map str_int entity_ids)))]]
    /\ calls (get_assignment_for_entity [10; 20]%Z "host") cl
       = [Call_get_assignments [("hosts", PStr "10,20")]]
    /\ calls (get_assignment_for_entity [10; 20]%Z "account") cl
       = [Call_get_assignments [("accounts", PStr "10,20")]].
Proof.
  intros ids cl _. unfold calls.
  rewrite !get_assignment_for_entity_run by reflexivity.
  repeat split.
Qed.

Lemma entity_filter_witness :
  [10; 20]%Z <> []
  /\ calls (get_assignment_for_entity [10; 20]%Z "host") (fun _ => Return PNone)
     = [Call_get_assignments [("hosts", PStr "10,20")]].
Proof.
  assert (Hne : [10; 20]%Z <> []) by discriminate.
  split; [exact Hne |].
  destruct (entity_filter_is_comma_joined_ids
              [10; 20]%Z (fun _ => Return PNone) Hne) as [Hhost _].
  exact Hhost.
Defined.

(** C7: on an empty [detection_ids], [mark_detection_fixed] returns
    "No detection IDs provided." and makes no client call, for either
    value of [mark_fixed]. *)
Theorem mark_detection_fixed_empty :
  forall (mark_fixed : bool) (cl : client),
    run (mark_detection_fixed [] mark_fixed) cl
    = ([], Return "No detection IDs provided.").
Proof. intros flag cl. unfold mark_detection_fixed. apply run_ret. Qed.

(** C8 as stated fails: the error [list_assignments_for_user] re-raises
    carries neither the user id nor the name of the tool. *)
Lemma listing_error_omits_user_id :
  let cl : client := fun _ => Raise (mk_exn ClientError "boom") in
  outcome (list_assignments_for_user 7 false) cl
  = Raise (mk_exn Exception "Failed to list assignments: boom")
  /\ contains (str_int 7) "Failed to list assignments: boom" = false
  /\ contains "list_assignments_for_user" "Failed to list assignments: boom" = false.
Proof. repeat split. Qed.

(** C8 (amended): every failure of a tool, be it a local validation error,
    an error raised by the client or an error of reading the client's
    answer, is re-raised as a generic [Exception] whose message is a prefix
    fixed by the tool followed by [str] of the original error, and a tool
    raises in no other case.  The prefix names the identifiers of the
    invocation for [get_assignment_detail_by_id] (the assignment id),
    [get_assignment_for_entity] (the entity type and ids),
    [create_entity_note] (the entity id) and [delete_assignment] (the
    assignment id); it carries none for [list_assignments],
    [list_assignments_for_user], [create_assignment] and
    [mark_detection_fixed]. *)
Theorem failures_are_reraised_with_prefix :
  forall (cl : client) (e : exn),
    (forall vdr resolved created_after,
        outcome (list_assignments vdr resolved created_after) cl = Raise e
        <-> exists e0,
              (vdr created_after None = Raise e0
               \/ exists lo hi,
                    vdr created_after None = Return (lo, hi)
                    /\ cl (list_query resolved lo) = Raise e0)
              /\ e = reraise "Failed to list assignments: " e0)
    /\ (forall user_id resolved,
          outcome (list_assignments_for_user user_id resolved) cl = Raise e
          <-> exists e0,
                cl (user_query user_id resolved) = Raise e0
                /\ e = reraise "Failed to list assignments: " e0)
    /\ (forall assignment_id,
          outcome (get_assignment_detail_by_id assignment_id) cl = Raise e
          <-> exists e0,
                cl (Call_get_assignment assignment_id) = Raise e0
                /\ e = reraise ("Failed to list assignment : "
                                  ++ str_int assignment_id ++ ": ") e0)
    /\ (forall entity_ids entity_type,
          outcome (get_assignment_for_entity entity_ids entity_type) cl = Raise e
          <-> exists e0,
                (in_host_account entity_type = false /\ e0 = entity_type_error
                 \/ in_host_account entity_type = true
                    /\ (cl (entity_query entity_ids entity_type) = Raise e0
                        \/ exists answer,
                             cl (entity_query entity_ids entity_type) = Return answer
                             /\ subscript answer "results" = Raise e0))
                /\ e = reraise ("Failed to fetch assignment for " ++ entity_type
                                  ++ ": " ++ str_int_list entity_ids ++ ": ") e0)
    /\ (forall uid eid ty,
          outcome (create_assignment uid eid ty) cl = Raise e
          <-> exists e0,
                (cl (create_query uid eid ty) = Raise e0
                 \/ exists answer,
                      cl (create_query uid eid ty) = Return answer
                      /\ (get_method answer "assignment" = Raise e0
                          \/ exists inner,
                               get_method answer "assignment" = Return inner
                               /\ get_method inner "id" = Raise e0))
                /\ e = reraise "Failed to create assignment: " e0)
    /\ (forall entity_id entity_type note,
          outcome (create_entity_note entity_id entity_type note) cl = Raise e
          <-> exists e0,
                (in_host_account entity_type = false /\ e0 = entity_type_error
                 \/ in_host_account entity_type = true
                    /\ cl (note_query entity_id entity_type note) = Raise e0)
                /\ e = reraise ("Failed to add note to entity "
                                  ++ str_int entity_id ++ ": ") e0)
    /\ (forall detection_ids mark_fixed,
          outcome (mark_detection_fixed detection_ids mark_fixed) cl = Raise e
          <-> exists e0,
                (detection_ids <> []
                 /\ cl (Call_mark_detection_fixed detection_ids mark_fixed) = Raise e0)
                /\ e = reraise "Failed to mark detections: " e0)
    /\ (forall assignment_id,
          outcome (delete_assignment assignment_id) cl = Raise e
          <-> exists e0,
                cl (Call_delete_assignment (PInt assignment_id)) = Raise e0
                /\ e = reraise ("Failed to delete assignment "
                                  ++ str_int assignment_id ++ ": ") e0).
Proof.
  intros cl e. unfold outcome, reraise. repeat apply conj.
  - intros vdr resolved ca.
    destruct (vdr ca None) as [[lo hi] | e1] eqn:Hv.
    + rewrite (list_assignments_run_valid vdr resolved ca lo hi cl Hv).
      cbn [snd]. unfold listing_outcome.
      destruct (cl (list_query resolved lo)) as [v | e1] eqn:Hcl.
      * split; [destruct (is_none v); discriminate |].
        intros (e0 & [Hv0 | (lo' & hi' & Hv0 & Hcl0)] & _); [discriminate Hv0 |].
        apply return_inj in Hv0. injection Hv0 as <- <-. congruence.
      * split.
        -- intros H. apply raise_inj in H. subst e. exists e1. split; [| reflexivity].
           right. now exists lo, hi.
        -- intros (e0 & [Hv0 | (lo' & hi' & Hv0 & Hcl0)] & ->); [discriminate Hv0 |].
           apply return_inj in Hv0. injection Hv0 as <- <-.
           rewrite Hcl in Hcl0. apply raise_inj in Hcl0. now subst.
    + rewrite (list_assignments_run_invalid vdr resolved ca e1 cl Hv). cbn [snd].
      split.
      * intros H. apply raise_inj in H. subst e. exists e1. split; [now left | reflexivity].
      * intros (e0 & [Hv0 | (lo' & hi' & Hv0 & _)] & ->); [| discriminate Hv0].
        apply raise_inj in Hv0. now subst.
  - intros uid resolved. rewrite list_assignments_for_user_run. cbn [snd].
    unfold listing_outcome.
    destruct (cl (user_query uid resolved)) as [v | e1].
    + split; [destruct (is_none v); discriminate |].
      intros (e0 & H & _). discriminate H.
    + split.
      * intros H. apply raise_inj in H. subst e. now exists e1.
      * intros (e0 & H & ->). apply raise_inj in H. now subst.
  - intros id. rewrite get_assignment_detail_by_id_run. cbn [snd].
    destruct (cl (Call_get_assignment id)) as [v | e1].
    + split; [discriminate |]. intros (e0 & H & _). discriminate H.
    + split.
      * intros H. apply raise_inj in H. subst e. now exists e1.
      * intros (e0 & H & ->). apply raise_inj in H. now subst.
  - intros ids ty.
    change ("Failed to fetch assignment for " ++ ty ++ ": "
              ++ str_int_list ids ++ ": ")
      with (fetch_failure_prefix ids ty).
    destruct (in_host_account ty) eqn:Hty.
    + rewrite (get_assignment_for_entity_run ids ty cl Hty). cbn [snd].
      unfold entity_outcome.
      destruct (cl (entity_query ids ty)) as [v | e1].
      * destruct (subscript v "results") as [r | e1] eqn:Hsub.
        -- split; [destruct (truthy r); discriminate |].
           intros (e0 & [[Hf _] | [_ [H | (a & Ha & Hs)]]] & _);
             [discriminate Hf | discriminate H |].
           apply return_inj in Ha. subst a. congruence.
        -- split.
           ++ intros H. apply raise_inj in H. subst e. exists e1.
              split; [| reflexivity]. right. split; [reflexivity |].
              right. now exists v.
           ++ intros (e0 & [[Hf _] | [_ [H | (a & Ha & Hs)]]] & ->);
                [discriminate Hf | discriminate H |].
              apply return_inj in Ha. subst a. rewrite Hsub in Hs.
              apply raise_inj in Hs. now subst.
      * split.
        -- intros H. apply raise_inj in H. subst e. exists e1.
           split; [| reflexivity]. right. split; [reflexivity | now left].
        -- intros (e0 & [[Hf _] | [_ [H | (a & Ha & _)]]] & ->);
             [discriminate Hf | | discriminate Ha].
           apply raise_inj in H. now subst.
    + rewrite (get_assignment_for_entity_invalid ids ty cl Hty). cbn [snd].
      split.
      * intros H. apply raise_inj in H. subst e. exists entity_type_error.
        split; [now left | reflexivity].
      * intros (e0 & [[_ ->] | [Ht _]] & ->); [reflexivity | discriminate Ht].
  - intros uid eid ty. rewrite create_assignment_run. cbn [snd].
    unfold create_outcome.
    destruct (cl (create_query uid eid ty)) as [v | e1].
    + destruct (get_method v "assignment") as [inner | e1] eqn:Ha.
      * destruct (get_method inner "id") as [aid | e1] eqn:Hi.
        -- split; [discriminate |].
           intros (e0 & [H | (a & Hcl & [H | (i & Hg & H)])] & _);
             [discriminate H | |];
             apply return_inj in Hcl; subst a; [congruence |].
           rewrite Ha in Hg. apply return_inj in Hg. subst i. congruence.
        -- split.
           ++ intros H. apply raise_inj in H. subst e. exists e1.
              split; [| reflexivity]. right. exists v. split; [reflexivity |].
              right. now exists inner.
           ++ intros (e0 & [H | (a & Hcl & [H | (i & Hg & H)])] & ->);
                [discriminate H | |];
                apply return_inj in Hcl; subst a; [congruence |].
              rewrite Ha in Hg. apply return_inj in Hg. subst i.
              rewrite Hi in H. apply raise_inj in H. now subst.
      * split.
        -- intros H. apply raise_inj in H. subst e. exists e1.
           split; [| reflexivity]. right. exists v. split; [reflexivity | now left].
        -- intros (e0 & [H | (a & Hcl & [H | (i & Hg & _)])] & ->);
             [discriminate H | |];
             apply return_inj in Hcl; subst a; [| congruence].
           rewrite Ha in H. apply raise_inj in H. now subst.
    + split.
      * intros H. apply raise_inj in H. subst e. exists e1.
        split; [now left | reflexivity].
      * intros (e0 & [H | (a & Hcl & _)] & ->); [| discriminate Hcl].
        apply raise_inj in H. now subst.
  - intros eid ty note. destruct (in_host_account ty) eqn:Hty.
    + rewrite (create_entity_note_run eid ty note cl Hty). cbn [snd].
      destruct (cl (note_query eid ty note)) as [v | e1].
      * split; [discriminate |].
        intros (e0 & [[Hf _] | [_ H]] & _); [discriminate Hf | discriminate H].
      * split.
        -- intros H. apply raise_inj in H. subst e. exists e1.
           split; [now right | reflexivity].
        -- intros (e0 & [[Hf _] | [_ H]] & ->); [discriminate Hf |].
           apply raise_inj in H. now subst.
    + rewrite (create_entity_note_invalid eid ty note cl Hty). cbn [snd].
      split.
      * intros H. apply raise_inj in H. subst e. exists entity_type_error.
        split; [now left |]. cbn [exn_str entity_type_error].
        now rewrite !string_app_assoc.
      * intros (e0 & [[_ ->] | [Ht _]] & ->); [| discriminate Ht].
        cbn [exn_str entity_type_error]. now rewrite !string_app_assoc.
  - intros ids flag. destruct ids as [| id ids].
    + unfold mark_detection_fixed. rewrite run_ret. cbn [snd].
      split; [discriminate |]. intros (e0 & [Hne _] & _). congruence.
    + rewrite mark_detection_fixed_run. cbn [snd].
      destruct (cl (Call_mark_detection_fixed (id :: ids) flag)) as [v | e1].
      * split; [discriminate |]. intros (e0 & [_ H] & _). discriminate H.
      * split.
        -- intros H. apply raise_inj in H. subst e. exists e1.
           split; [| reflexivity]. split; [discriminate | reflexivity].
        -- intros (e0 & [_ H] & ->). apply raise_inj in H. now subst.
  - intros id. rewrite delete_assignment_run. cbn [snd].
    destruct (cl (Call_delete_assignment (PInt id))) as [v | e1].
    + split; [discriminate |]. intros (e0 & H & _). discriminate H.
    + split.
      * intros H. apply raise_inj in H. subst e. now exists e1.
      * intros (e0 & H & ->). apply raise_inj in H. now subst.
Qed.

Lemma failures_are_reraised_with_prefix_witness :
  outcome (get_assignment_detail_by_id 5)
          (fun _ => Raise (mk_exn ClientError "404 Not Found"))
  = Raise (mk_exn Exception "Failed to list assignment : 5: 404 Not Found").
Proof.
  apply (proj1 (proj2 (proj2
           (failures_are_reraised_with_prefix
              (fun _ => Raise (mk_exn ClientError "404 Not Found"))
              (mk_exn Exception "Failed to list assignment : 5: 404 Not Found"))))
           5%Z).
  exists (mk_exn ClientError "404 Not Found"). split; reflexivity.
Defined.

(** C9: for a valid [entity_type], when the client answers the query with
    [None], or with a mapping that has no [results] key, the tool ends in
    the re-raised error "Failed to fetch assignment for ..."; the tool
    returns the no-assignments message exactly when the answer is a
    mapping whose [results] entry is empty in the sense of the test the
    code applies, [not results]; for a list under [results] that is
    exactly the empty list. *)
Theorem no_assignments_only_for_empty_results :
  forall (entity_ids : list Z) (entity_type : string) (cl : client) (answer : pyval),
    in_host_account entity_type = true ->
    cl (entity_query entity_ids entity_type) = Return answer ->
    (answer = PNone ->
       outcome (get_assignment_for_entity entity_ids entity_type) cl
       = Raise (mk_exn Exception
                  (fetch_failure_prefix entity_ids entity_type
                     ++ "'NoneType' object is not subscriptable")))
    /\ (forall d, answer = PDict d -> dict_lookup d "results" = None ->
           outcome (get_assignment_for_entity entity_ids entity_type) cl
           = Raise (mk_exn Exception
                      (fetch_failure_prefix entity_ids entity_type ++ "'results'")))
    /\ (outcome (get_assignment_for_entity entity_ids entity_type) cl
         = Return (no_assignments_for entity_ids entity_type)
         <-> exists d results,
               answer = PDict d /\ dict_lookup d "results" = Some results
               /\ truthy results = false)
    /\ (forall d items,
           answer = PDict d -> dict_lookup d "results" = Some (PList items) ->
           (outcome (get_assignment_for_entity entity_ids entity_type) cl
            = Return (no_assignments_for entity_ids entity_type)
            <-> items = [])).
Proof.
  intros ids ty cl answer Hty Hcl.
  unfold outcome. rewrite (get_assignment_for_entity_run ids ty cl Hty), Hcl.
  cbn [snd]. unfold entity_outcome.
  split; [| split; [| split]].
  - intros ->. reflexivity.
  - intros d -> Hnone. cbn [subscript]. rewrite Hnone. reflexivity.
  - split.
    + destruct answer as [| b | z | s | items | d]; cbn [subscript];
        try discriminate.
      destruct (dict_lookup d "results") as [r |] eqn:Hr; [| discriminate].
      destruct (truthy r) eqn:Ht.
      * intros Heq. injection Heq as Heq.
        now apply json_dumps_not_no_assignments in Heq.
      * intros _. now exists d, r.
    + intros (d & r & -> & Hr & Ht). cbn [subscript]. rewrite Hr, Ht. reflexivity.
  - intros d items -> Hr. cbn [subscript]. rewrite Hr.
    destruct items as [| item items]; cbn [truthy].
    + split; reflexivity.
    + split; [| discriminate].
      intros Heq. exfalso.
      apply (json_dumps_not_no_assignments (Some 2) (PList (item :: items)) ids ty).
      congruence.
Qed.

Lemma no_assignments_only_for_empty_results_witness :
  outcome (get_assignment_for_entity [10; 20]%Z "account") (fun _ => Return PNone)
  = Raise (mk_exn Exception
             (fetch_failure_prefix [10; 20]%Z "account"
                ++ "'NoneType' object is not subscriptable")).
Proof.
  refine (proj1 (no_assignments_only_for_empty_results
                   [10; 20]%Z "account" (fun _ => Return PNone) PNone _ _) _);
    reflexivity.
Defined.

(** C10: on a non-empty [detection_ids] and two clients whose call does
    not raise, [mark_detection_fixed] returns the same string, fixed by
    the number of ids and the flag, whatever the two responses are. *)
Theorem mark_detection_fixed_ignores_response :
  forall (detection_ids : list Z) (mark_fixed : bool) (cl1 cl2 : client)
         (response1 response2 : pyval),
    detection_ids <> [] ->
    cl1 (Call_mark_detection_fixed detection_ids mark_fixed) = Return response1 ->
    cl2 (Call_mark_detection_fixed detection_ids mark_fixed) = Return response2 ->
    outcome (mark_detection_fixed detection_ids mark_fixed) cl1
    = outcome (mark_detection_fixed detection_ids mark_fixed) cl2
    /\ outcome (mark_detection_fixed detection_ids mark_fixed) cl1
       = Return ("Marked " ++ str_nat (List.length detection_ids)
                   ++ " detections as "
                   ++ (if mark_fixed then "fixed" else "not fixed") ++ ".").
Proof.
  intros ids flag cl1 cl2 r1 r2 Hne H1 H2.
  destruct ids as [| id ids]; [congruence |].
  unfold outcome. rewrite !mark_detection_fixed_run, H1, H2.
  split; reflexivity.
Qed.

Lemma mark_detection_fixed_ignores_response_witness :
  outcome (mark_detection_fixed [1; 2; 3]%Z true) (fun _ => Return PNone)
  = outcome (mark_detection_fixed [1; 2; 3]%Z true)
            (fun _ => Return (PDict [("_meta", PDict [("level", PStr "Success")])]))
  /\ outcome (mark_detection_fixed [1; 2; 3]%Z true) (fun _ => Return PNone)
     = Return "Marked 3 detections as fixed.".
Proof.
  apply (mark_detection_fixed_ignores_response
           [1; 2; 3]%Z true
           (fun _ => Return PNone)
           (fun _ => Return (PDict [("_meta", PDict [("level", PStr "Success")])]))
           PNone (PDict [("_meta", PDict [("level", PStr "Success")])]));
    [discriminate | reflexivity | reflexivity].
Defined.

(* ===================================================================== *)
(** ** Further properties of the tools *)
(* ===================================================================== *)

(** *** How the remaining tools run *)

(** The log of [list_assignments], whatever the validator does. *)
Lemma list_assignments_calls_bound vdr resolved created_after cl :
  (List.length (calls (list_assignments vdr resolved created_after) cl) <= 1)%nat.
Proof.
  unfold calls.
  destruct (vdr created_after None) as [[lo hi] | e] eqn:Hv.
  - rewrite (list_assignments_run_valid vdr resolved created_after lo hi cl Hv).
    cbn. lia.
  - rewrite (list_assignments_run_invalid vdr resolved created_after e cl Hv).
    cbn. lia.
Qed.

(** X1: an invocation of any of the eight tools makes at most one client
    call, for every input, every validator and every client. *)
Theorem every_tool_makes_at_most_one_call :
  forall (cl : client),
    (forall vdr resolved created_after,
        List.length (calls (list_assignments vdr resolved created_after) cl) <= 1)%nat
    /\ (forall user_id resolved,
          List.length (calls (list_assignments_for_user user_id resolved) cl) <= 1)%nat
    /\ (forall assignment_id,
          List.length (calls (get_assignment_detail_by_id assignment_id) cl) <= 1)%nat
    /\ (forall entity_ids entity_type,
          List.length (calls (get_assignment_for_entity entity_ids entity_type) cl)
          <= 1)%nat
    /\ (forall uid eid ty,
          List.length (calls (create_assignment uid eid ty) cl) <= 1)%nat
    /\ (forall entity_id entity_type note,
          List.length (calls (create_entity_note entity_id entity_type note) cl)
          <= 1)%nat
    /\ (forall detection_ids mark_fixed,
          List.length (calls (mark_detection_fixed detection_ids mark_fixed) cl)
          <= 1)%nat
    /\ (forall assignment_id,
          List.length (calls (delete_assignment assignment_id) cl) <= 1)%nat.
Proof.
  intros cl. repeat apply conj.
  - intros. apply list_assignments_calls_bound.
  - intros. unfold calls. rewrite list_assignments_for_user_run. cbn. lia.
  - intros. unfold calls. rewrite get_assignment_detail_by_id_run. cbn. lia.
  - intros ids ty. unfold calls. destruct (in_host_account ty) eqn:Hty.
    + rewrite (get_assignment_for_entity_run ids ty cl Hty). cbn. lia.
    + rewrite (get_assignment_for_entity_invalid ids ty cl Hty). cbn. lia.
  - intros. unfold calls. rewrite create_assignment_run. cbn. lia.
  - intros eid ty note. unfold calls. destruct (in_host_account ty) eqn:Hty.
    + rewrite (create_entity_note_run eid ty note cl Hty). cbn. lia.
    + rewrite (create_entity_note_invalid eid ty note cl Hty). cbn. lia.
  - intros ids flag. unfold calls. destruct ids as [| id ids].
    + unfold mark_detection_fixed. rewrite run_ret. cbn. lia.
    + rewrite mark_detection_fixed_run. cbn. lia.
  - intros. unfold calls. rewrite delete_assignment_run. cbn. lia.
Qed.

(** X2: when the one client call of a tool raises, the tool raises the
    generic [Exception] whose message is the tool's prefix followed by the
    exact text of the client's error, after that single call: no tool
    swallows a client error or retries. *)
Theorem client_error_is_reraised_with_its_text :
  forall (cl : client) (e0 : exn),
    (forall vdr resolved created_after lo hi,
        vdr created_after None = Return (lo, hi) ->
        cl (list_query resolved lo) = Raise e0 ->
        run (list_assignments vdr resolved created_after) cl
        = ([list_query resolved lo],
           Raise (mk_exn Exception ("Failed to list assignments: " ++ exn_str e0))))
    /\ (forall user_id resolved,
          cl (user_query user_id resolved) = Raise e0 ->
          run (list_assignments_for_user user_id resolved) cl
          = ([user_query user_id resolved],
             Raise (mk_exn Exception ("Failed to list assignments: " ++ exn_str e0))))
    /\ (forall assignment_id,
          cl (Call_get_assignment assignment_id) = Raise e0 ->
          run (get_assignment_detail_by_id assignment_id) cl
          = ([Call_get_assignment assignment_id],
             Raise (mk_exn Exception
                      ("Failed to list assignment : " ++ str_int assignment_id
                         ++ ": " ++ exn_str e0))))
    /\ (forall entity_ids entity_type,
          in_host_account entity_type = true ->
          cl (entity_query entity_ids entity_type) = Raise e0 ->
          run (get_assignment_for_entity entity_ids entity_type) cl
          = ([entity_query entity_ids entity_type],
             Raise (mk_exn Exception
                      ("Failed to fetch assignment for " ++ entity_type ++ ": "
                         ++ str_int_list entity_ids ++ ": " ++ exn_str e0))))
    /\ (forall uid eid ty,
          cl (create_query uid eid ty) = Raise e0 ->
          run (create_assignment uid eid ty) cl
          = ([create_query uid eid ty],
             Raise (mk_exn Exception ("Failed to create assignment: " ++ exn_str e0))))
    /\ (forall entity_id entity_type note,
          in_host_account entity_type = true ->
          cl (note_query entity_id entity_type note) = Raise e0 ->
          run (create_entity_note entity_id entity_type note) cl
          = ([note_query entity_id entity_type note],
             Raise (mk_exn Exception
                      ("Failed to add note to entity " ++ str_int entity_id ++ ": "
                         ++ exn_str e0))))
    /\ (forall detection_ids mark_fixed,
          detection_ids <> [] ->
          cl (Call_mark_detection_fixed detection_ids mark_fixed) = Raise e0 ->
          run (mark_detection_fixed detection_ids mark_fixed) cl
          = ([Call_mark_detection_fixed detection_ids mark_fixed],
             Raise (mk_exn Exception ("Failed to mark detections: " ++ exn_str e0))))
    /\ (forall assignment_id,
          cl (Call_delete_assignment (PInt assignment_id)) = Raise e0 ->
          run (delete_assignment assignment_id) cl
          = ([Call_delete_assignment (PInt assignment_id)],
             Raise (mk_exn Exception
                      ("Failed to delete assignment " ++ str_int assignment_id
                         ++ ": " ++ exn_str e0)))).
Proof.
  intros cl e0. repeat apply conj.
  - intros vdr resolved ca lo hi Hv Hcl.
    rewrite (list_assignments_run_valid vdr resolved ca lo hi cl Hv), Hcl.
    reflexivity.
  - intros uid resolved Hcl. rewrite list_assignments_for_user_run, Hcl.
    reflexivity.
  - intros id Hcl. rewrite get_assignment_detail_by_id_run, Hcl.
    now rewrite !string_app_assoc.
  - intros ids ty Hty Hcl.
    rewrite (get_assignment_for_entity_run ids ty cl Hty), Hcl.
    unfold entity_outcome, fetch_failure_prefix.
    now rewrite !string_app_assoc.
  - intros uid eid ty Hcl. rewrite create_assignment_run, Hcl. reflexivity.
  - intros eid ty note Hty Hcl.
    rewrite (create_entity_note_run eid ty note cl Hty), Hcl.
    now rewrite !string_app_assoc.
  - intros ids flag Hne Hcl. destruct ids as [| id ids]; [congruence |].
    rewrite mark_detection_fixed_run, Hcl. reflexivity.
  - intros id Hcl. rewrite delete_assignment_run, Hcl.
    now rewrite !string_app_assoc.
Qed.

Lemma client_error_is_reraised_witness :
  run (delete_assignment 5) (fun _ => Raise (mk_exn ClientError "404 Not Found"))
  = ([Call_delete_assignment (PInt 5)],
     Raise (mk_exn Exception "Failed to delete assignment 5: 404 Not Found")).
Proof.
  apply (proj2 (proj2 (proj2 (proj2 (proj2 (proj2 (proj2
           (client_error_is_reraised_with_its_text
              (fun _ => Raise (mk_exn ClientError "404 Not Found"))
              (mk_exn ClientError "404 Not Found")))))))) 5%Z).
  reflexivity.
Defined.

(** X3: a tool consults one method of the client and nothing else.  Two
    clients that agree on [get_assignments] give the same run of the three
    tools that query it; two that agree on [delete_assignment] give the same
    run of [delete_assignment] and of [create_assignment], which awaits that
    method too. *)
Theorem tools_consult_one_client_method :
  forall (cl1 cl2 : client),
    (agree_on_get_assignments cl1 cl2 ->
     (forall vdr resolved created_after,
         run (list_assignments vdr resolved created_after) cl1
         = run (list_assignments vdr resolved created_after) cl2)
     /\ (forall user_id resolved,
           run (list_assignments_for_user user_id resolved) cl1
           = run (list_assignments_for_user user_id resolved) cl2)
     /\ (forall entity_ids entity_type,
           run (get_assignment_for_entity entity_ids entity_type) cl1
           = run (get_assignment_for_entity entity_ids entity_type) cl2))
    /\ (agree_on_delete_assignment cl1 cl2 ->
        (forall assignment_id,
            run (delete_assignment assignment_id) cl1
            = run (delete_assignment assignment_id) cl2)
        /\ (forall uid eid ty,
              run (create_assignment uid eid ty) cl1
              = run (create_assignment uid eid ty) cl2)).
Proof.
  intros cl1 cl2. split.
  - intros Hagree. repeat apply conj.
    + intros vdr resolved ca.
      destruct (vdr ca None) as [[lo hi] | e] eqn:Hv.
      * rewrite !(list_assignments_run_valid vdr resolved ca lo hi _ Hv).
        unfold list_query. now rewrite Hagree.
      * now rewrite !(list_assignments_run_invalid vdr resolved ca e _ Hv).
    + intros uid resolved. rewrite !list_assignments_for_user_run.
      unfold user_query. now rewrite Hagree.
    + intros ids ty. destruct (in_host_account ty) eqn:Hty.
      * rewrite !(get_assignment_for_entity_run ids ty _ Hty).
        unfold entity_query. now rewrite Hagree.
      * now rewrite !(get_assignment_for_entity_invalid ids ty _ Hty).
  - intros Hagree. split.
    + intros id. rewrite !delete_assignment_run. now rewrite Hagree.
    + intros uid eid ty. rewrite !create_assignment_run.
      unfold create_query. now rewrite Hagree.
Qed.

Lemma tools_consult_one_client_method_witness :
  run (create_assignment 1 5 "host")
      (fun c => match c with
                | Call_delete_assignment _ => Return PNone
                | _ => Raise (mk_exn ClientError "down")
                end)
  = run (create_assignment 1 5 "host") (fun _ => Return PNone).
Proof.
  refine (proj2 (proj2 (tools_consult_one_client_method _ _) _) 1%Z 5%Z "host").
  intros arg. reflexivity.
Defined.



(** [v.get(k)] returns only on a dict. *)
Lemma get_method_return v k x :
  get_method v k = Return x ->
  exists d, v = PDict d
            /\ x = match dict_lookup d k with Some y => y | None => PNone end.
Proof.
  destruct v as [| b | z | s | items | d]; cbn [get_method]; try discriminate.
  intros H. exists d. split; [reflexivity |].
  destruct (dict_lookup d k); injection H as <-; reflexivity.
Qed.

(** X5: [create_assignment] returns a result only when the client's
    answer is a mapping whose [assignment] entry is itself a mapping, and
    the result is then [json.dumps] of the whole answer; an answer that is a
    mapping without an [assignment] key ends in the re-raised
    [AttributeError] although the client call succeeded. *)
Theorem create_assignment_needs_assignment_mapping :
  forall (uid eid : Z) (ty : string) (cl : client) (answer : pyval),
    cl (create_query uid eid ty) = Return answer ->
    (forall d inner,
        answer = PDict d -> dict_lookup d "assignment" = Some (PDict inner) ->
        outcome (create_assignment uid eid ty) cl
        = Return (json_dumps None answer))
    /\ (forall text,
          outcome (create_assignment uid eid ty) cl = Return text ->
          text = json_dumps None answer
          /\ exists d inner,
               answer = PDict d
               /\ dict_lookup d "assignment" = Some (PDict inner))
    /\ (forall d,
          answer = PDict d -> dict_lookup d "assignment" = None ->
          outcome (create_assignment uid eid ty) cl
          = Raise (mk_exn Exception
                     "Failed to create assignment: 'NoneType' object has no attribute 'get'")).
Proof.
  intros uid eid ty cl answer Hcl.
  unfold outcome. rewrite create_assignment_run, Hcl. cbn [snd].
  unfold create_outcome. repeat apply conj.
  - intros d inner -> Hlk. cbn [get_method]. rewrite Hlk.
    cbn [get_method]. destruct (dict_lookup inner "id"); reflexivity.
  - intros text.
    destruct (get_method answer "assignment") as [inner |] eqn:Ha; [| discriminate].
    destruct (get_method inner "id") as [aid |] eqn:Hi; [| discriminate].
    intros H. injection H as <-. split; [reflexivity |].
    destruct (get_method_return _ _ _ Ha) as (d & -> & Hinner).
    destruct (get_method_return _ _ _ Hi) as (d' & Hd' & _).
    exists d, d'. split; [reflexivity |].
    destruct (dict_lookup d "assignment") as [y |]; [| subst inner; discriminate].
    now subst.
  - intros d -> Hlk. cbn [get_method]. rewrite Hlk. reflexivity.
Qed.

Lemma create_assignment_needs_assignment_mapping_witness :
  outcome (create_assignment 1 5 "host") (fun _ => Return (PDict [("id", PInt 9)]))
  = Raise (mk_exn Exception
             "Failed to create assignment: 'NoneType' object has no attribute 'get'").
Proof.
  refine (proj2 (proj2 (create_assignment_needs_assignment_mapping
                          1%Z 5%Z "host" (fun _ => Return (PDict [("id", PInt 9)]))
                          (PDict [("id", PInt 9)]) _))
                [("id", PInt 9)] _ _);
    reflexivity.
Defined.

(** X6: [create_assignment] does not validate the entity type: every
    value other than "account", valid or not, runs exactly as "host" does,
    with the entity id sent under [assign_host_id]. *)
Theorem create_assignment_defaults_to_host :
  forall (uid eid : Z) (ty : string) (cl : client),
    ty <> "account" ->
    run (create_assignment uid eid ty) cl = run (create_assignment uid eid "host") cl
    /\ calls (create_assignment uid eid ty) cl
       = [Call_delete_assignment
            (PDict [("assign_to_user_id", PInt uid); ("assign_host_id", PInt eid)])].
Proof.
  intros uid eid ty cl Hty.
  assert (Hq : create_query uid eid ty = create_query uid eid "host").
  { unfold create_query, assignment_data.
    apply String.eqb_neq in Hty. rewrite Hty. reflexivity. }
  unfold calls. rewrite !create_assignment_run, Hq. split; reflexivity.
Qed.

Lemma create_assignment_defaults_to_host_witness :
  run (create_assignment 1 5 "printer") (fun _ => Return PNone)
  = run (create_assignment 1 5 "host") (fun _ => Return PNone).
Proof.
  refine (proj1 (create_assignment_defaults_to_host
                   1%Z 5%Z "printer" (fun _ => Return PNone) _)).
  discriminate.
Defined.

(** X7: [get_assignment_detail_by_id] and [create_entity_note] have no
    guard on the answer: whatever object the client returns, mapping or
    not, the tool returns its [json.dumps(..., indent=2)], so an answer of
    [None] comes back as the text [null]. *)
Theorem unguarded_tools_serialize_any_answer :
  forall (cl : client) (answer : pyval),
    (forall assignment_id,
        cl (Call_get_assignment assignment_id) = Return answer ->
        run (get_assignment_detail_by_id assignment_id) cl
        = ([Call_get_assignment assignment_id], Return (json_dumps (Some 2) answer))
        /\ (answer = PNone ->
            outcome (get_assignment_detail_by_id assignment_id) cl = Return "null"))
    /\ (forall entity_id entity_type note,
          in_host_account entity_type = true ->
          cl (note_query entity_id entity_type note) = Return answer ->
          run (create_entity_note entity_id entity_type note) cl
          = ([note_query entity_id entity_type note],
             Return (json_dumps (Some 2) answer))
          /\ (answer = PNone ->
              outcome (create_entity_note entity_id entity_type note) cl
              = Return "null")).
Proof.
  intros cl answer. split.
  - intros id Hcl. unfold outcome.
    rewrite get_assignment_detail_by_id_run, Hcl.
    split; [reflexivity | intros ->; reflexivity].
  - intros eid ty note Hty Hcl. unfold outcome.
    rewrite (create_entity_note_run eid ty note cl Hty), Hcl.
    split; [reflexivity | intros ->; reflexivity].
Qed.

Lemma unguarded_tools_serialize_any_answer_witness :
  run (create_entity_note 4 "host" "seen") (fun _ => Return PNone)
  = ([note_query 4 "host" "seen"], Return (json_dumps (Some 2) PNone)).
Proof.
  refine (proj1 (proj2 (unguarded_tools_serialize_any_answer
                          (fun _ => Return PNone) PNone)
                       4%Z "host" "seen" _ _));
    reflexivity.
Defined.

(** *** Substrings *)

Lemma prefix_app (n rest : string) : prefix n (n ++ rest) = true.
Proof.
  induction n as [| c n IH]; cbn; [now destruct rest |].
  destruct (ascii_dec c c) as [_ | Hneq]; [exact IH | now elim Hneq].
Qed.

Lemma contains_prefix (n rest : string) : contains n (n ++ rest) = true.
Proof.
  destruct (n ++ rest) eqn:Heq; cbn [contains];
    rewrite <- Heq, prefix_app; reflexivity.
Qed.

Lemma contains_app_r (n a s : string) :
  contains n s = true -> contains n (a ++ s) = true.
Proof.
  intros Hs. induction a as [| c a IH]; [exact Hs |].
  cbn [append contains]. rewrite IH. apply orb_true_r.
Qed.

Lemma contains_self (n : string) : contains n n = true.
Proof.
  destruct n as [| c n]; [reflexivity |].
  cbn [contains prefix].
  destruct (ascii_dec c c) as [_ | Hneq]; [| now elim Hneq].
  assert (Hp : prefix n n = true).
  { induction n as [| c' n IH]; [reflexivity |]. cbn [prefix].
    destruct (ascii_dec c' c') as [_ | Hneq]; [exact IH | now elim Hneq]. }
  now rewrite Hp.
Qed.

(** [needle] occurs in any text built around it. *)
Lemma contains_middle (before needle rest : string) :
  contains needle (before ++ needle ++ rest) = true.
Proof. apply contains_app_r, contains_prefix. Qed.

(** X8: [delete_assignment] confirms with a text that names the id,
    whatever the client returns; when the client raises, the re-raised
    message names the id and carries the client's text. *)
Theorem delete_assignment_names_the_id :
  forall (assignment_id : Z) (cl : client),
    (forall answer,
        cl (Call_delete_assignment (PInt assignment_id)) = Return answer ->
        exists text,
          outcome (delete_assignment assignment_id) cl = Return text
          /\ text = "Assignment " ++ str_int assignment_id ++ " deleted successfully."
          /\ contains (str_int assignment_id) text = true)
    /\ (forall e0,
          cl (Call_delete_assignment (PInt assignment_id)) = Raise e0 ->
          exists msg,
            outcome (delete_assignment assignment_id) cl
            = Raise (mk_exn Exception msg)
            /\ contains (str_int assignment_id) msg = true
            /\ contains (exn_str e0) msg = true).
Proof.
  intros id cl. split.
  - intros answer Hcl. unfold outcome. rewrite delete_assignment_run, Hcl.
    eexists. split; [reflexivity |]. split; [reflexivity |].
    apply contains_middle.
  - intros e0 Hcl. unfold outcome. rewrite delete_assignment_run, Hcl.
    eexists. split; [reflexivity |]. split.
    + rewrite !string_app_assoc. apply contains_middle.
    + apply contains_app_r, contains_self.
Qed.

Lemma delete_assignment_names_the_id_witness :
  exists text,
    outcome (delete_assignment 5) (fun _ => Return PNone) = Return text
    /\ text = "Assignment " ++ str_int 5 ++ " deleted successfully."
    /\ contains (str_int 5) text = true.
Proof.
  apply (proj1 (delete_assignment_names_the_id 5%Z (fun _ => Return PNone)) PNone).
  reflexivity.
Defined.

(** X9: how [list_assignments] uses the imported validator, whatever it
    is bound to.  It never calls the client when the validator raises, and
    the validator's text is kept in the message; it sends [resolved] alone
    when the validator returns no lower bound, and [resolved] followed by
    [created_after], the ISO text of the bound, when it returns one; the
    upper bound the validator returns is not used. *)
Theorem list_assignments_follows_validator :
  forall vdr (resolved : bool) (created_after : option string) (cl : client),
    (forall e,
        vdr created_after None = Raise e ->
        run (list_assignments vdr resolved created_after) cl
        = ([], Raise (mk_exn Exception ("Failed to list assignments: " ++ exn_str e))))
    /\ (forall hi,
          vdr created_after None = Return (None, hi) ->
          calls (list_assignments vdr resolved created_after) cl
          = [Call_get_assignments [("resolved", PBool resolved)]])
    /\ (forall d hi,
          vdr created_after None = Return (Some d, hi) ->
          calls (list_assignments vdr resolved created_after) cl
          = [Call_get_assignments
               [("resolved", PBool resolved);
                ("created_after", PStr (isoformat d))]])
    /\ (forall lo hi,
          vdr created_after None = Return (lo, hi) ->
          run (list_assignments vdr resolved created_after) cl
          = run (list_assignments (fun _ _ => Return (lo, None)) resolved None) cl).
Proof.
  intros vdr resolved ca cl. repeat apply conj.
  - intros e Hv. now apply list_assignments_run_invalid.
  - intros hi Hv. unfold calls.
    now rewrite (list_assignments_run_valid vdr resolved ca None hi cl Hv).
  - intros d hi Hv. unfold calls.
    now rewrite (list_assignments_run_valid vdr resolved ca (Some d) hi cl Hv).
  - intros lo hi Hv.
    rewrite (list_assignments_run_valid vdr resolved ca lo hi cl Hv).
    now rewrite (list_assignments_run_valid (fun _ _ => Return (lo, None))
                   resolved None lo None cl eq_refl).
Qed.

Lemma list_assignments_follows_validator_witness :
  calls (list_assignments (fun _ _ => Return (None, None)) true None)
        (fun _ => Return PNone)
  = [Call_get_assignments [("resolved", PBool true)]].
Proof.
  apply (proj1 (proj2 (list_assignments_follows_validator
                         (fun _ _ => Return (None, None)) true None
                         (fun _ => Return PNone)))
           None).
  reflexivity.
Defined.

(** *** The characters of the texts *)

Lemma all_chars_app p (a b : string) :
  all_chars p (a ++ b) = all_chars p a && all_chars p b.
Proof.
  induction a as [| c a IH]; [reflexivity |].
  cbn [append all_chars]. rewrite IH. apply andb_assoc.
Qed.

Lemma all_chars_weaken (p q : ascii -> bool) s :
  (forall c, p c = true -> q c = true) ->
  all_chars p s = true -> all_chars q s = true.
Proof.
  intros Hpq. induction s as [| c s IH]; [reflexivity |].
  cbn [all_chars]. intros H. apply andb_true_iff in H. destruct H as [Hc Hs].
  apply andb_true_iff. split; [now apply Hpq | now apply IH].
Qed.

Lemma int_char_text_char c : int_char c = true -> text_char c = true.
Proof.
  unfold int_char, text_char. intros H.
  apply orb_true_iff in H. apply orb_true_iff. right.
  apply andb_true_iff.
  destruct H as [H | H].
  - apply andb_true_iff in H. destruct H as [Hlo Hhi].
    apply Nat.leb_le in Hlo. apply Nat.leb_le in Hhi.
    split; apply Nat.leb_le; lia.
  - apply Nat.eqb_eq in H. split; apply Nat.leb_le; lia.
Qed.

Lemma string_of_uint_int_chars d :
  all_chars int_char (NilEmpty.string_of_uint d) = true.
Proof. induction d; cbn; auto. Qed.

(** [str(n)] is made of digits and at most a minus sign, and is not
    empty. *)
Lemma str_int_int_chars z : all_chars int_char (str_int z) = true.
Proof.
  unfold str_int. destruct (Z.to_int z) as [d | d]; cbn.
  - destruct d; try reflexivity; apply (string_of_uint_int_chars (_ _)).
  - destruct d; try reflexivity; apply (string_of_uint_int_chars (_ _)).
Qed.

Lemma str_int_ascii z : ascii_text (str_int z) = true.
Proof.
  apply (all_chars_weaken int_char); [apply int_char_text_char |].
  apply str_int_int_chars.
Qed.

Lemma ascii_text_app (a b : string) :
  ascii_text (a ++ b) = ascii_text a && ascii_text b.
Proof. apply all_chars_app. Qed.

Lemma escape_char_ascii c : ascii_text (escape_char c) = true.
Proof.
  destruct c as [b0 b1 b2 b3 b4 b5 b6 b7].
  destruct b0, b1, b2, b3, b4, b5, b6, b7; reflexivity.
Qed.

Lemma escape_string_ascii s : ascii_text (escape_string s) = true.
Proof.
  induction s as [| c s IH]; [reflexivity |].
  cbn [escape_string]. now rewrite ascii_text_app, IH, escape_char_ascii.
Qed.

Lemma encode_basestring_ascii_ascii s :
  ascii_text (encode_basestring_ascii s) = true.
Proof.
  unfold encode_basestring_ascii.
  now rewrite !ascii_text_app, escape_string_ascii.
Qed.

Lemma spaces_ascii n : ascii_text (spaces n) = true.
Proof. induction n as [| n IH]; [reflexivity | exact IH]. Qed.

Lemma newline_indent_ascii indent level :
  ascii_text (newline_indent indent level) = true.
Proof.
  destruct indent as [w |]; [| reflexivity].
  cbn [newline_indent]. apply spaces_ascii.
Qed.

Lemma item_separator_ascii indent : ascii_text (item_separator indent) = true.
Proof. destruct indent; reflexivity. Qed.

Lemma join_ascii sep parts :
  ascii_text sep = true ->
  Forall (fun part => ascii_text part = true) parts ->
  ascii_text (join sep parts) = true.
Proof.
  intros Hsep Hparts.
  induction Hparts as [| x rest Hx Hrest IH]; [reflexivity |].
  destruct rest as [| y rest]; [exact Hx |].
  change (join sep (x :: y :: rest)) with (x ++ sep ++ join sep (y :: rest)).
  now rewrite !ascii_text_app, Hx, Hsep, IH.
Qed.

(** Induction on a Python value whose list items and dict values satisfy
    the property. *)
Section PyvalInduction.

Variable P : pyval -> Prop.
Hypothesis HNone : P PNone.
Hypothesis HBool : forall b, P (PBool b).
Hypothesis HInt : forall z, P (PInt z).
Hypothesis HStr : forall s, P (PStr s).
Hypothesis HList : forall items, Forall P items -> P (PList items).
Hypothesis HDict :
  forall entries, Forall (fun kv => P (snd kv)) entries -> P (PDict entries).

Fixpoint pyval_nested_ind (v : pyval) : P v :=
  match v with
  | PNone => HNone
  | PBool b => HBool b
  | PInt z => HInt z
  | PStr s => HStr s
  | PList items =>
      HList items
        ((fix all (l : list pyval) : Forall P l :=
            match l with
            | [] => Forall_nil P
            | x :: rest => Forall_cons x (pyval_nested_ind x) (all rest)
            end) items)
  | PDict entries =>
      HDict entries
        ((fix all (l : list (string * pyval))
            : Forall (fun kv => P (snd kv)) l :=
            match l with
            | [] => Forall_nil _
            | kv :: rest =>
                Forall_cons kv (pyval_nested_ind (snd kv)) (all rest)
            end) entries)
  end.

End PyvalInduction.

(** The separator between the items of a container is ASCII. *)
Lemma separator_ascii indent level :
  ascii_text (item_separator indent ++ newline_indent indent level) = true.
Proof.
  now rewrite ascii_text_app, item_separator_ascii, newline_indent_ascii.
Qed.

(** The JSON text of any value, at any indentation, is ASCII: escapes
    replace every other character. *)
Lemma iterencode_ascii indent v :
  forall level, ascii_text (iterencode indent level v) = true.
Proof.
  induction v as [| b | z | s | items IH | entries IH] using pyval_nested_ind;
    intros level.
  - reflexivity.
  - destruct b; reflexivity.
  - apply str_int_ascii.
  - apply encode_basestring_ascii_ascii.
  - destruct items as [| item items]; [reflexivity |].
    cbn [iterencode].
    rewrite !ascii_text_app, !newline_indent_ascii, join_ascii.
    + reflexivity.
    + apply separator_ascii.
    + apply Forall_map. revert IH. apply Forall_impl. intros x Hx. apply Hx.
  - destruct entries as [| entry entries]; [reflexivity |].
    cbn [iterencode].
    rewrite !ascii_text_app, !newline_indent_ascii, join_ascii.
    + reflexivity.
    + apply separator_ascii.
    + apply Forall_map. revert IH. apply Forall_impl. intros kv Hkv.
      now rewrite !ascii_text_app, encode_basestring_ascii_ascii, Hkv.
Qed.

Lemma json_dumps_ascii indent v : ascii_text (json_dumps indent v) = true.
Proof. apply iterencode_ascii. Qed.

Lemma str_int_list_ascii ids : ascii_text (str_int_list ids) = true.
Proof.
  unfold str_int_list. rewrite !ascii_text_app, join_ascii; [reflexivity .. |].
  apply Forall_map, Forall_forall. intros z _. apply str_int_ascii.
Qed.

Lemma in_host_account_true ty :
  in_host_account ty = true -> ty = "host" \/ ty = "account".
Proof.
  unfold in_host_account. intros H.
  apply orb_true_iff in H. destruct H as [H | H]; apply String.eqb_eq in H; auto.
Qed.

Lemma listing_outcome_ascii answer text :
  listing_outcome answer = Return text -> ascii_text text = true.
Proof.
  unfold listing_outcome. destruct answer as [v | e]; [| discriminate].
  destruct (is_none v); intros H; injection H as <-;
    [reflexivity | apply json_dumps_ascii].
Qed.

(** X10: whatever the client answers, every text a tool returns (as
    opposed to raises) is made of printable ASCII characters and line
    breaks only: the literal messages, the decimal ids and counts, and the
    JSON texts, in which every other character of the answer is escaped. *)
Theorem every_returned_text_is_ascii :
  forall (cl : client) (text : string),
    (forall vdr resolved created_after,
        outcome (list_assignments vdr resolved created_after) cl = Return text ->
        ascii_text text = true)
    /\ (forall user_id resolved,
          outcome (list_assignments_for_user user_id resolved) cl = Return text ->
          ascii_text text = true)
    /\ (forall assignment_id,
          outcome (get_assignment_detail_by_id assignment_id) cl = Return text ->
          ascii_text text = true)
    /\ (forall entity_ids entity_type,
          outcome (get_assignment_for_entity entity_ids entity_type) cl
          = Return text ->
          ascii_text text = true)
    /\ (forall uid eid ty,
          outcome (create_assignment uid eid ty) cl = Return text ->
          ascii_text text = true)
    /\ (forall entity_id entity_type note,
          outcome (create_entity_note entity_id entity_type note) cl = Return text ->
          ascii_text text = true)
    /\ (forall detection_ids mark_fixed,
          outcome (mark_detection_fixed detection_ids mark_fixed) cl = Return text ->
          ascii_text text = true)
    /\ (forall assignment_id,
          outcome (delete_assignment assignment_id) cl = Return text ->
          ascii_text text = true).
Proof.
  intros cl text. repeat apply conj.
  - intros vdr resolved ca. unfold outcome.
    destruct (vdr ca None) as [[lo hi] | e] eqn:Hv.
    + rewrite (list_assignments_run_valid vdr resolved ca lo hi cl Hv).
      apply listing_outcome_ascii.
    + rewrite (list_assignments_run_invalid vdr resolved ca e cl Hv).
      discriminate.
  - intros uid resolved. unfold outcome. rewrite list_assignments_for_user_run.
    apply listing_outcome_ascii.
  - intros id. unfold outcome. rewrite get_assignment_detail_by_id_run. cbn [snd].
    destruct (cl _) as [v | e]; [| discriminate].
    intros H. injection H as <-. apply json_dumps_ascii.
  - intros ids ty. unfold outcome. destruct (in_host_account ty) eqn:Hty.
    + rewrite (get_assignment_for_entity_run ids ty cl Hty). cbn [snd].
      unfold entity_outcome.
      destruct (cl _) as [v | e]; [| discriminate].
      destruct (subscript v "results") as [r | e]; [| discriminate].
      destruct (truthy r); intros H; apply return_inj in H; subst text.
      * apply json_dumps_ascii.
      * unfold no_assignments_for.
        rewrite !ascii_text_app, str_int_list_ascii.
        destruct (in_host_account_true ty Hty) as [-> | ->]; reflexivity.
    + rewrite (get_assignment_for_entity_invalid ids ty cl Hty). discriminate.
  - intros uid eid ty. unfold outcome. rewrite create_assignment_run. cbn [snd].
    unfold create_outcome.
    destruct (cl _) as [v | e]; [| discriminate].
    destruct (get_method v "assignment") as [inner | e]; [| discriminate].
    destruct (get_method inner "id"); [| discriminate].
    intros H. injection H as <-. apply json_dumps_ascii.
  - intros eid ty note. unfold outcome. destruct (in_host_account ty) eqn:Hty.
    + rewrite (create_entity_note_run eid ty note cl Hty). cbn [snd].
      destruct (cl _) as [v | e]; [| discriminate].
      intros H. injection H as <-. apply json_dumps_ascii.
    + rewrite (create_entity_note_invalid eid ty note cl Hty). discriminate.
  - intros ids flag. unfold outcome. destruct ids as [| id ids].
    + unfold mark_detection_fixed. rewrite run_ret. cbn [snd].
      intros H. injection H as <-. reflexivity.
    + rewrite mark_detection_fixed_run. cbn [snd].
      destruct (cl _) as [v | e]; [| discriminate].
      intros H. apply return_inj in H. subst text.
      rewrite !ascii_text_app. unfold str_nat. rewrite str_int_ascii.
      destruct flag; reflexivity.
  - intros id. unfold outcome. rewrite delete_assignment_run. cbn [snd].
    destruct (cl _) as [v | e]; [| discriminate].
    intros H. apply return_inj in H. subst text. unfold deleted_message.
    now rewrite !ascii_text_app, str_int_ascii.
Qed.

Lemma every_returned_text_is_ascii_witness :
  ascii_text (json_dumps (Some 2) (PDict [("name", PStr (String "233" "t"))])) = true.
Proof.
  apply (proj1 (proj2 (proj2
           (every_returned_text_is_ascii
              (fun _ => Return (PDict [("name", PStr (String "233" "t"))]))
              (json_dumps (Some 2) (PDict [("name", PStr (String "233" "t"))])))))
           5%Z).
  reflexivity.
Defined.

(** *** The ids behind a filter *)

Lemma to_int_not_nil z :
  Z.to_int z <> Decimal.Pos Decimal.Nil /\ Z.to_int z <> Decimal.Neg Decimal.Nil.
Proof.
  split; intros H; pose proof (DecimalZ.of_to z) as Hz; rewrite H in Hz;
    cbn in Hz; subst z; discriminate H.
Qed.

(** [str] is one-to-one on [int]. *)
Lemma str_int_inj z z' : str_int z = str_int z' -> z = z'.
Proof.
  unfold str_int. intros H.
  destruct (to_int_not_nil z) as [Hp Hn].
  destruct (to_int_not_nil z') as [Hp' Hn'].
  apply DecimalZ.to_int_inj.
  pose proof (NilZero.isi _ Hp Hn) as H1.
  pose proof (NilZero.isi _ Hp' Hn') as H2.
  rewrite H in H1. congruence.
Qed.

Lemma str_int_nonempty z : str_int z <> "".
Proof.
  destruct (str_int_start z) as (c & rest & Hc & _). rewrite Hc. discriminate.
Qed.

Lemma join_cons sep x rest :
  join sep (x :: rest)
  = x ++ match rest with [] => "" | _ => sep ++ join sep rest end.
Proof.
  destruct rest; [| reflexivity].
  cbn [join]. induction x as [| c x IH]; [reflexivity |].
  cbn [append]. now rewrite <- IH.
Qed.

(** Two texts of digits and minus signs, each followed by nothing or by a
    comma, are equal when the whole texts are. *)
Lemma int_text_split x y r r' :
  all_chars int_char x = true -> all_chars int_char y = true ->
  (r = "" \/ exists t, r = String "," t) ->
  (r' = "" \/ exists t, r' = String "," t) ->
  x ++ r = y ++ r' -> x = y /\ r = r'.
Proof.
  revert y. induction x as [| c x IH]; intros y Hx Hy Hr Hr' Heq.
  - destruct y as [| d y]; [now split |].
    cbn [append] in Heq. cbn [all_chars] in Hy.
    apply andb_true_iff in Hy. destruct Hy as [Hd _].
    destruct Hr as [-> | (t & ->)]; [discriminate |].
    injection Heq as <- _. discriminate Hd.
  - cbn [all_chars] in Hx. apply andb_true_iff in Hx. destruct Hx as [Hc Hx].
    destruct y as [| d y].
    + cbn [append] in Heq.
      destruct Hr' as [-> | (t & ->)]; [discriminate |].
      injection Heq as -> _. discriminate Hc.
    + cbn [append] in Heq. injection Heq as -> Heq.
      cbn [all_chars] in Hy. apply andb_true_iff in Hy. destruct Hy as [_ Hy].
      destruct (IH y Hx Hy Hr Hr' Heq) as [-> ->]. now split.
Qed.

Lemma join_tail_shape parts :
  join_tail parts = "" \/ exists t, join_tail parts = String "," t.
Proof. destruct parts; [now left | right; now eexists]. Qed.

(** The comma-joined text of a list of ids determines the list. *)
Lemma join_str_int_inj ids ids' :
  join "," (map str_int ids) = join "," (map str_int ids') -> ids = ids'.
Proof.
  revert ids'. induction ids as [| z ids IH]; intros [| z' ids'] Heq.
  - reflexivity.
  - cbn [map] in Heq. rewrite join_cons in Heq. exfalso.
    apply (str_int_nonempty z'). now destruct (str_int z').
  - cbn [map] in Heq. rewrite join_cons in Heq. exfalso.
    apply (str_int_nonempty z). now destruct (str_int z).
  - cbn [map] in Heq. rewrite !join_cons in Heq.
    change (str_int z ++ join_tail (map str_int ids)
            = str_int z' ++ join_tail (map str_int ids')) in Heq.
    apply int_text_split in Heq;
      try apply str_int_int_chars; try apply join_tail_shape.
    destruct Heq as [Hz Htail]. apply str_int_inj in Hz. subst z'.
    f_equal. apply IH.
    destruct ids as [| a ids], ids' as [| a' ids']; try discriminate Htail.
    + reflexivity.
    + unfold join_tail in Htail. cbn [map] in Htail.
      now injection Htail.
Qed.

(** X11: the filter [get_assignment_for_entity] sends determines the
    list of ids: two invocations with the same valid type that send the
    same query were given the same ids, in the same order.  An empty list
    is not rejected: it is sent as the empty filter. *)
Theorem entity_filter_determines_ids :
  forall (ids ids' : list Z) (entity_type : string) (cl cl' : client),
    in_host_account entity_type = true ->
    (calls (get_assignment_for_entity ids entity_type) cl
     = calls (get_assignment_for_entity ids' entity_type) cl' ->
     ids = ids')
    /\ calls (get_assignment_for_entity [] entity_type) cl
       = [Call_get_assignments
            [(if String.eqb entity_type "host" then "hosts" else "accounts",
              PStr "")]].
Proof.
  intros ids ids' ty cl cl' Hty. unfold calls.
  rewrite !(get_assignment_for_entity_run _ ty _ Hty). cbn [fst].
  unfold entity_query. split.
  - intros Heq. apply join_str_int_inj.
    destruct (String.eqb ty "host"); now injection Heq.
  - destruct (String.eqb ty "host"); reflexivity.
Qed.

Lemma entity_filter_determines_ids_witness :
  calls (get_assignment_for_entity [] "account") (fun _ => Return PNone)
  = [Call_get_assignments [("accounts", PStr "")]].
Proof.
  refine (proj2 (entity_filter_determines_ids
                   [] [] "account" (fun _ => Return PNone) (fun _ => Return PNone) _)).
  reflexivity.
Defined.

(** X12: [register_tools] registers each of the eight tool methods of
    the class exactly once, after whatever the host already holds. *)
Theorem register_tools_registers_each_tool_once :
  forall (host : list tool_name) (t : tool_name),
    count_occ tool_name_eq_dec (register_tools host) t
    = S (count_occ tool_name_eq_dec host t)
    /\ firstn (List.length host) (register_tools host) = host
    /\ List.length (register_tools host) = (List.length host + 8)%nat.
Proof.
  intros host t.
  assert (Happ : register_tools host
                 = (host ++ [Tool_create_assignment; Tool_list_assignments;
                             Tool_list_assignments_for_user; Tool_delete_assignment;
                             Tool_get_assignment_detail_by_id;
                             Tool_get_assignment_for_entity;
                             Tool_create_entity_note;
                             Tool_mark_detection_fixed])%list).
  { unfold register_tools, register. now rewrite <- !app_assoc. }
  rewrite Happ. repeat apply conj.
  - rewrite count_occ_app. destruct t; cbn; lia.
  - rewrite firstn_app, Nat.sub_diag, firstn_all. cbn. apply app_nil_r.
  - rewrite length_app. reflexivity.
Qed.

(** X13: [mark_detection_fixed] returns "No detection IDs provided."
    exactly for the empty list, and that is the only input for which it
    makes no client call; any other list is sent whole, in one call. *)
Theorem mark_detection_fixed_short_circuits_only_on_empty :
  forall (detection_ids : list Z) (mark_fixed : bool) (cl : client),
    (outcome (mark_detection_fixed detection_ids mark_fixed) cl
     = Return "No detection IDs provided." <-> detection_ids = [])
    /\ (calls (mark_detection_fixed detection_ids mark_fixed) cl = []
        <-> detection_ids = [])
    /\ (detection_ids <> [] ->
        calls (mark_detection_fixed detection_ids mark_fixed) cl
        = [Call_mark_detection_fixed detection_ids mark_fixed]).
Proof.
  intros ids flag cl. unfold outcome, calls.
  destruct ids as [| id ids].
  - unfold mark_detection_fixed. rewrite run_ret. cbn [fst snd].
    repeat split; congruence.
  - rewrite mark_detection_fixed_run. cbn [fst snd]. repeat split.
    + destruct (cl _) as [v | e]; intros H; [| discriminate H].
      apply return_inj in H. cbn in H. discriminate H.
    + discriminate.
    + discriminate.
    + discriminate.
Qed.

Lemma mark_detection_fixed_short_circuits_witness :
  calls (mark_detection_fixed [4; 4; 2]%Z false) (fun _ => Return PNone)
  = [Call_mark_detection_fixed [4; 4; 2]%Z false].
Proof.
  apply (proj2 (proj2 (mark_detection_fixed_short_circuits_only_on_empty
                         [4; 4; 2]%Z false (fun _ => Return PNone)))).
  discriminate.
Defined.

(** *** Empty values and their JSON texts *)

Lemma escape_char_nonempty c : escape_char c <> "".
Proof.
  destruct c as [b0 b1 b2 b3 b4 b5 b6 b7].
  destruct b0, b1, b2, b3, b4, b5, b6, b7; discriminate.
Qed.

Lemma escape_string_empty s : escape_string s = "" -> s = "".
Proof.
  destruct s as [| c s]; [reflexivity |].
  cbn [escape_string]. intros H. exfalso.
  apply (escape_char_nonempty c). now destruct (escape_char c).
Qed.

(** A text with a character that is neither a digit nor a minus sign is
    not the text of an [int]. *)
Lemma str_int_not text z :
  all_chars int_char text = false -> str_int z <> text.
Proof.
  intros Htext Heq. rewrite <- Heq, str_int_int_chars in Htext. discriminate.
Qed.

(** The JSON text of a value whose truth value is true is none of the
    texts of the empty values. *)
Lemma truthy_json_not_empty r :
  truthy r = true -> ~ In (json_dumps (Some 2) r) empty_json_texts.
Proof.
  unfold json_dumps, empty_json_texts.
  destruct r as [| b | z | s | items | entries]; cbn [truthy iterencode].
  - discriminate.
  - intros ->. cbn. intuition discriminate.
  - intros Hz Hin. apply negb_true_iff, Z.eqb_neq in Hz.
    cbn [In] in Hin.
    destruct Hin as [H | [H | [H | [H | [H | [H | []]]]]]];
      try (symmetry in H; revert H; apply str_int_not; reflexivity).
    apply Hz. apply str_int_inj. now rewrite <- H.
  - intros Hs Hin. apply negb_true_iff, String.eqb_neq in Hs.
    cbn [In] in Hin. unfold encode_basestring_ascii, dquote in Hin.
    cbn [append] in Hin.
    destruct Hin as [H | [H | [H | [H | [H | [H | []]]]]]]; try discriminate H.
    injection H as H. apply Hs, escape_string_empty.
    destruct (escape_string s) as [| c rest]; [reflexivity |].
    cbn [append] in H. destruct rest; discriminate H.
  - destruct items as [| item items]; [discriminate |].
    intros _. cbn. intuition discriminate.
  - destruct entries as [| entry entries]; [discriminate |].
    intros _. cbn. intuition discriminate.
Qed.

(** X14: [get_assignment_for_entity] never returns the JSON text of an
    empty value: when the [results] entry of the answer is an empty list,
    an empty dict, an empty string, [None], [False] or zero, the tool
    returns the no-assignments message instead, so none of the texts
    [[]], [{}], the empty string text, [null], [false] and [0] is ever
    its result. *)
Theorem entity_tool_never_returns_empty_json :
  forall (entity_ids : list Z) (entity_type : string) (cl : client) (text : string),
    outcome (get_assignment_for_entity entity_ids entity_type) cl = Return text ->
    ~ In text empty_json_texts.
Proof.
  intros ids ty cl text. unfold outcome.
  destruct (in_host_account ty) eqn:Hty.
  - rewrite (get_assignment_for_entity_run ids ty cl Hty). cbn [snd].
    unfold entity_outcome.
    destruct (cl _) as [v | e]; [| discriminate].
    destruct (subscript v "results") as [r | e]; [| discriminate].
    destruct (truthy r) eqn:Hr; intros H; apply return_inj in H; subst text.
    + now apply truthy_json_not_empty.
    + unfold no_assignments_for, empty_json_texts. cbn. intuition discriminate.
  - rewrite (get_assignment_for_entity_invalid ids ty cl Hty). discriminate.
Qed.

Lemma entity_tool_never_returns_empty_json_witness :
  ~ In (no_assignments_for [10; 20]%Z "host") empty_json_texts.
Proof.
  apply (entity_tool_never_returns_empty_json
           [10; 20]%Z "host" (fun _ => Return (PDict [("results", PList [])]))).
  reflexivity.
Defined.

(** *** Reading a JSON text back *)


























